(** * midrasai.client.main: the synchronous and asynchronous client facades

    A shallow embedding of [src/midrasai/client/main.py] (classes [Midras]
    and [AsyncMidras]) and the properties of its batching pipeline, its
    response validation and its query operation.

    Python statements become computations of a state-and-exception monad
    over a [World] made of the remote service, the vector store, and two
    ghost traces (the transport calls issued, the lines printed).  The
    world survives an exception, so the requests issued before a failure
    stay observable. *)

From Stdlib Require Import ZArith String Bool Lia QArith List.
Import ListNotations.
Local Open Scope string_scope.
Local Open Scope list_scope.
Local Open Scope Z_scope.

(** ** Python exceptions *)

(** The exceptions the code can meet.  The first group is raised by the
    Python runtime, by httpx, by pydantic or by a collaborator.  The second
    group is the taxonomy of the specification (section 7); the source never
    names any of them. *)
Inductive exn : Type :=
  | ValueError (msg : string)
  | AttributeError (attr : string)
  | TypeError
  | IndexError
  | ValidationError
  | JSONDecodeError
  | TransportError
  | CollaboratorError (msg : string)
  | InvalidInputError
  | InvalidConfigurationError
  | ServiceError (body : string)
  | RequestRejectedError
  | MalformedResponseError
  | IndexNotFoundError.

(** Membership in the specification's taxonomy. *)
Definition in_taxonomy (e : exn) : bool :=
  match e with
  | InvalidInputError | InvalidConfigurationError | ServiceError _
  | RequestRejectedError | MalformedResponseError | IndexNotFoundError => true
  | _ => false
  end.

Inductive result (A : Type) : Type :=
  | Ok (a : A)
  | Err (e : exn).
Arguments Ok {A} a.
Arguments Err {A} e.

Definition is_ok {A} (r : result A) : bool :=
  match r with Ok _ => true | Err _ => false end.

(** ** Python built-ins used by the pipeline *)

Module Py.

(** Number of elements of [range(start, stop, step)] for [step <> 0]:
    CPython's [compute_range_length]. *)
Definition range_length (start stop step : Z) : nat :=
  if 0 <? step then
    if start <? stop then Z.to_nat ((stop - 1 - start) / step + 1) else 0%nat
  else
    if stop <? start then Z.to_nat ((start - 1 - stop) / (- step) + 1) else 0%nat.

(** [range(start, stop, step)], as the list a [for] loop walks through.
    A zero step raises [ValueError]. *)
Definition range (start stop step : Z) : result (list Z) :=
  if step =? 0 then Err (ValueError "range() arg 3 must not be zero")
  else Ok (map (fun k => start + Z.of_nat k * step)
               (seq 0 (range_length start stop step))).

(** [len(l)] *)
Definition len {A} (l : list A) : Z := Z.of_nat (List.length l).

(** A slice bound brought into [0 .. len], as [PySlice_AdjustIndices]
    does for a positive step. *)
Definition adjust_index (n i : Z) : Z :=
  if i <? 0 then (if i + n <? 0 then 0 else i + n)
  else if n <=? i then n else i.

(** [l[i:j]] *)
Definition slice {A} (l : list A) (i j : Z) : list A :=
  let start := adjust_index (len l) i in
  let stop := adjust_index (len l) j in
  firstn (Z.to_nat (stop - start)) (skipn (Z.to_nat start) l).

(** [l[0]] *)
Definition first {A} (l : list A) : result A :=
  match l with
  | [] => Err IndexError
  | x :: _ => Ok x
  end.

(** [sum(l)] on integers *)
Definition sum (l : list Z) : Z := fold_right Z.add 0 l.

End Py.

(** ** JSON values, as [json.loads] (hence [response.json()]) builds them *)

#[local] Set Warnings "-register-all".

Inductive json : Type :=
  | JNull
  | JBool (b : bool)
  | JInt (n : Z)
  | JFloat (q : Q)
  | JStr (s : string)
  | JList (l : list json)
  | JDict (d : list (string * json)).

(** [d.get(k)] on a decoded object, kept as an association list. *)
Fixpoint dict_get (k : string) (d : list (string * json)) : option json :=
  match d with
  | [] => None
  | (k', v) :: d' => if String.eqb k k' then Some v else dict_get k d'
  end.

Fixpoint traverse {A B} (f : A -> option B) (l : list A) : option (list B) :=
  match l with
  | [] => Some []
  | x :: l' =>
      match f x, traverse f l' with
      | Some y, Some ys => Some (y :: ys)
      | _, _ => None
      end
  end.

(** ** midrasai.types *)

(** Modelled from the spec: [ColBERT] (midrasai.types, not in src) is "an
    ordered sequence of fixed-dimension numeric vectors representing one
    encoded unit" (section 3). *)
Definition ColBERT : Type := list (list Q).

(** Modelled from the spec: [Mode] (midrasai.types, not in src); the
    request's mode, "standard" by default. *)
Definition Mode : Type := string.

(** Modelled from the spec: [MidrasRequest] (midrasai.types, not in src),
    the outbound request [{credential, mode, <images|queries>}] of section
    6, with the field names the source passes to its constructor. *)
Record MidrasRequest : Type := {
  key : string;
  mode : Mode;
  base64images : option (list string);
  queries : option (list string)
}.

Definition as_number (j : json) : option Q :=
  match j with
  | JInt n => Some (inject_Z n)
  | JFloat q => Some q
  | _ => None
  end.

Definition as_vector (j : json) : option (list Q) :=
  match j with JList l => traverse as_number l | _ => None end.

Definition as_ColBERT (j : json) : option ColBERT :=
  match j with JList l => traverse as_vector l | _ => None end.

Definition as_embeddings (j : json) : option (list ColBERT) :=
  match j with JList l => traverse as_ColBERT l | _ => None end.

(** ** External collaborators *)

(** [httpx.Response], reduced to what the client reads: the status code,
    the raw body, and the outcome of [response.json()] ([None] when the body
    does not decode). *)
Record Response : Type := {
  status_code : Z;
  text : string;
  json_body : option json
}.

(** [response.json()] *)
Definition Response_json (response : Response) : result json :=
  match json_body response with
  | Some j => Ok j
  | None => Err JSONDecodeError
  end.

(** What the client is plugged into (specification, section 6): the
    rasterizer [pdf2image.convert_from_path], the image encoder inherited
    from the base class, the remote embedding service behind the httpx
    client, and the vector store behind [self.index].  The service and the
    store are state machines; a call may also raise. *)
Class Collaborators : Type := {
  Image : Type;
  Service : Type;
  Index : Type;
  Matches : Type;
  base64_encode_image : Image -> string;
  convert_from_path : string -> result (list Image);
  post : string -> MidrasRequest -> Service -> result Response * Service;
  search : string -> ColBERT -> Z -> Index -> result Matches * Index
}.

Section Runtime.
Context `{Collaborators}.

(** Modelled from the spec: [MidrasResponse] (midrasai.types, not in
    src), the EmbeddingResponse of section 3: [credits_spent] a
    non-negative integer, [embeddings] an ordered sequence of embeddings,
    [images] optional. *)
Record MidrasResponse : Type := {
  credits_spent : Z;
  embeddings : list ColBERT;
  images : option (list Image)
}.

(** Modelled from the spec: the constructor
    [MidrasResponse(credits_spent=.., embeddings=.., images=..)] of the
    pydantic model (midrasai.types, not in src).  It refuses a value that
    breaks the data model of section 3, here a negative [credits_spent]. *)
Definition MidrasResponse_init (credits_spent : Z) (embeddings : list ColBERT)
    (images : option (list Image)) : result MidrasResponse :=
  if credits_spent <? 0 then Err ValidationError
  else Ok {| credits_spent := credits_spent;
             embeddings := embeddings;
             images := images |}.

(** Modelled from the spec: the pydantic model (not in src) built from
    the keyword arguments unpacked from a decoded JSON value [x], as
    [validate_response] does with [response.json()].  Unpacking a value that is not
    a mapping is a [TypeError]; a mapping is validated against the
    EmbeddingResponse shape and fails "if required fields are absent or of
    the wrong shape" (section 4.4).  No JSON value is a raster image, so
    [images] is accepted only absent or null. *)
Definition MidrasResponse_of_json (x : json) : result MidrasResponse :=
  match x with
  | JDict d =>
      match dict_get "credits_spent" d, dict_get "embeddings" d with
      | Some (JInt c), Some e =>
          match as_embeddings e, dict_get "images" d with
          | Some es, None | Some es, Some JNull => MidrasResponse_init c es None
          | _, _ => Err ValidationError
          end
      | _, _ => Err ValidationError
      end
  | _ => Err TypeError
  end.

(** Attribute access on a value decoded from JSON.  A dict, list, str,
    int, float, bool or None has neither an [embeddings] nor a
    [credits_spent] attribute, so the access raises whatever the value. *)
Definition json_getattr {A : Type} (x : json) (name : string) : result A :=
  Err (AttributeError name).

(** Modelled from the spec: [base64_encode_image_list], inherited from
    the base class (midrasai._abc, not in src): "lossless,
    order-preserving" encoding, one string per image (section 4.1). *)
Definition base64_encode_image_list (pil_images : list Image) : list string :=
  map base64_encode_image pil_images.

(** The world the client acts on.  [requests] and [printed] are ghost
    traces: every transport call issued, in order, and every value passed
    to [print]. *)
Record World : Type := {
  service : Service;
  index : Index;
  requests : list (string * MidrasRequest);
  printed : list Z
}.

(** Computations: run from a world, end in a value or an exception, and
    leave a world behind in both cases. *)
Definition M (A : Type) : Type := World -> result A * World.

Definition ret {A} (a : A) : M A := fun w => (Ok a, w).

Definition bind {A B} (m : M A) (k : A -> M B) : M B :=
  fun w =>
    match m w with
    | (Ok a, w') => k a w'
    | (Err e, w') => (Err e, w')
    end.

(** A pure step that may raise. *)
Definition lift {A} (r : result A) : M A := fun w => (r, w).

(** [for x in xs: st = body x st], leaving the loop at the first
    exception. *)
Fixpoint for_in {X St} (xs : list X) (body : X -> St -> M St) (st : St) : M St :=
  match xs with
  | [] => ret st
  | x :: xs' => bind (body x st) (for_in xs' body)
  end.

(** Calls in sequence, collecting the values returned; stops at the first
    exception. *)
Fixpoint call_each {X A} (call : X -> M A) (xs : list X) : M (list A) :=
  match xs with
  | [] => ret []
  | x :: xs' => bind (call x) (fun a => bind (call_each call xs') (fun l => ret (a :: l)))
  end.

(** [self.client.post(url, json=request.model_dump(), timeout=180)] *)
Definition client_post (url : string) (request : MidrasRequest) : M Response :=
  fun w =>
    let (r, s) := post url request (service w) in
    (r, {| service := s;
           index := index w;
           requests := requests w ++ [(url, request)];
           printed := printed w |}).

(** [print(n)] *)
Definition print (n : Z) : M unit :=
  fun w =>
    (Ok tt, {| service := service w;
               index := index w;
               requests := requests w;
               printed := printed w ++ [n] |}).

(** [self.index.search(index, query_vector, quantity)] *)
Definition index_search (name : string) (query_vector : ColBERT) (quantity : Z)
    : M Matches :=
  fun w =>
    let (r, i) := search name query_vector quantity (index w) in
    (r, {| service := service w;
           index := i;
           requests := requests w;
           printed := printed w |}).

(** The facade object: [self.api_key]; [self.client] and [self.index]
    live in the world. *)
Record Facade : Type := { api_key : string }.

End Runtime.

Declare Scope py_scope.
Delimit Scope py_scope with py.
Notation "x <- m ;; k" := (bind m (fun x => k))
  (at level 61, m at next level, right associativity) : py_scope.
Notation "m ;;; k" := (bind m (fun _ => k))
  (at level 61, right associativity) : py_scope.

(** ** The vector store behind [self.index] *)

(** [id: str | int] *)
Inductive point_id : Type :=
  | StrId (s : string)
  | IntId (n : Z).

(** The rest of the vector store interface, as [create_index] and
    [add_point] call it on [self.index] (the abstract classes [VectorDB] and
    [AsyncVectorDB] of midrasai._abc are not in src): each method is a
    transition of the store that may raise.  [Payload] is the
    [dict[str, Any]] attached to a point, [Saved] what [save_points]
    returns. *)
Class VectorStore `{Collaborators} : Type := {
  Point : Type;
  Payload : Type;
  Saved : Type;
  create_index : string -> Index -> result bool * Index;
  create_point : point_id -> ColBERT -> Payload -> Index -> result Point * Index;
  save_points : string -> list Point -> Index -> result Saved * Index
}.

Section StoreRuntime.
Context `{VectorStore}.

(** A call on [self.index]: only the store changes. *)
Definition index_call {A} (method : Index -> result A * Index) : M A :=
  fun w =>
    let (r, i) := method (index w) in
    (r, {| service := service w;
           index := i;
           requests := requests w;
           printed := printed w |}).

(** [self.index.create_index(name)] *)
Definition index_create_index (name : string) : M bool :=
  index_call (create_index name).

(** [self.index.create_point(id=id, embedding=embedding, data=data)] *)
Definition index_create_point (id : point_id) (embedding : ColBERT) (data : Payload)
    : M Point :=
  index_call (create_point id embedding data).

(** [self.index.save_points(index, points)] *)
Definition index_save_points (name : string) (points : list Point) : M Saved :=
  index_call (save_points name points).

End StoreRuntime.

Local Open Scope py_scope.

(** ** class Midras: the blocking facade *)

Module Midras.
Section Methods.
Context `{Collaborators}.

(** [Midras.embed_images]: builds the request, posts it, prints the status
    code and returns [response.json()], the decoded body as it is. *)
Definition embed_images (self : Facade) (pil_images : list Image) (mode : Mode)
    : M json :=
  let base64_images := base64_encode_image_list pil_images in
  let request := {| key := api_key self;
                    mode := mode;
                    base64images := Some base64_images;
                    queries := None |} in
  response <- client_post "/embed/images" request ;;
  print (status_code response) ;;;
  lift (Response_json response).

(** [Midras.embed_pdf] *)
Definition embed_pdf (self : Facade) (pdf_path : string) (batch_size : Z)
    (include_images : bool) : M MidrasResponse :=
  images <- lift (convert_from_path pdf_path) ;;
  steps <- lift (Py.range 0 (Py.len images) batch_size) ;;
  st <- for_in steps
          (fun i '(embeddings', total_spent) =>
             let image_batch := Py.slice images i (i + batch_size) in
             response <- embed_images self image_batch "standard" ;;
             extension <- lift (json_getattr response "embeddings") ;;
             spent <- lift (json_getattr response "credits_spent") ;;
             ret (embeddings' ++ extension, total_spent + spent))
          ([], 0) ;;
  lift (MidrasResponse_init (snd st) (fst st)
          (if include_images then Some images else None)).

(** [Midras.embed_queries] *)
Definition embed_queries (self : Facade) (texts : list string) (mode : Mode)
    : M json :=
  let request := {| key := api_key self;
                    mode := mode;
                    base64images := None;
                    queries := Some texts |} in
  response <- client_post "/embed/queries" request ;;
  lift (Response_json response).

(** [Midras.query] *)
Definition query (self : Facade) (index : string) (query : string) (quantity : Z)
    : M Matches :=
  response <- embed_queries self [query] "standard" ;;
  vectors <- lift (json_getattr response "embeddings") ;;
  query_vector <- lift (Py.first vectors) ;;
  index_search index query_vector quantity.

End Methods.

Section StoreMethods.
Context `{VectorStore}.

(** [Midras.create_index] *)
Definition create_index (self : Facade) (name : string) : M bool :=
  index_create_index name.

(** [Midras.add_point] *)
Definition add_point (self : Facade) (index : string) (id : point_id)
    (embedding : ColBERT) (data : Payload) : M Saved :=
  point <- index_create_point id embedding data ;;
  index_save_points index [point].

End StoreMethods.
End Midras.

(** ** class AsyncMidras: the cooperative facade

    Every [await] of the source completes before the next statement runs,
    so a coroutine is the same sequential computation. *)

Module AsyncMidras.
Section Methods.
Context `{Collaborators}.

(** [AsyncMidras.validate_response] *)
Definition validate_response (response : Response) : result MidrasResponse :=
  if 500 <=? status_code response then Err (ValueError (text response))
  else
    match Response_json response with
    | Ok x => MidrasResponse_of_json x
    | Err e => Err e
    end.

(** [AsyncMidras.embed_images] *)
Definition embed_images (self : Facade) (pil_images : list Image) (mode : Mode)
    : M MidrasResponse :=
  let base64_images := base64_encode_image_list pil_images in
  let request := {| key := api_key self;
                    mode := mode;
                    base64images := Some base64_images;
                    queries := None |} in
  response <- client_post "/embed/images" request ;;
  lift (validate_response response).

(** [AsyncMidras.embed_pdf] *)
Definition embed_pdf (self : Facade) (pdf_path : string) (batch_size : Z)
    (include_images : bool) : M MidrasResponse :=
  images <- lift (convert_from_path pdf_path) ;;
  steps <- lift (Py.range 0 (Py.len images) batch_size) ;;
  st <- for_in steps
          (fun i '(embeddings', total_spent) =>
             let image_batch := Py.slice images i (i + batch_size) in
             response <- embed_images self image_batch "standard" ;;
             ret (embeddings' ++ embeddings response,
                  total_spent + credits_spent response))
          ([], 0) ;;
  lift (MidrasResponse_init (snd st) (fst st)
          (if include_images then Some images else None)).

(** [AsyncMidras.embed_text]; it posts to the empty path. *)
Definition embed_text (self : Facade) (texts : list string) (mode : Mode)
    : M MidrasResponse :=
  let request := {| key := api_key self;
                    mode := mode;
                    base64images := None;
                    queries := Some texts |} in
  response <- client_post "" request ;;
  lift (validate_response response).

(** [AsyncMidras.query_text] *)
Definition query_text (self : Facade) (index : string) (query : string)
    (quantity : Z) : M Matches :=
  response <- embed_text self [query] "standard" ;;
  query_vector <- lift (Py.first (embeddings response)) ;;
  index_search index query_vector quantity.

End Methods.

Section StoreMethods.
Context `{VectorStore}.

(** [AsyncMidras.create_index] *)
Definition create_index (self : Facade) (name : string) : M bool :=
  index_create_index name.

(** [AsyncMidras.add_point] *)
Definition add_point (self : Facade) (index : string) (id : point_id)
    (embedding : ColBERT) (data : Payload) : M Saved :=
  point <- index_create_point id embedding data ;;
  index_save_points index [point].

End StoreMethods.
End AsyncMidras.

(** ** Test doubles

    Concrete collaborators on which the facades are run: pages are numbered
    [0 .. n-1]; the store answers every search with the query vector. *)

Definition units_of (request : MidrasRequest) : nat :=
  match base64images request, queries request with
  | Some l, _ => List.length l
  | None, Some q => List.length q
  | None, None => 0%nat
  end.

(** A well-behaved service: to its [call]-th request it answers 200 with
    one credit and one embedding per unit, the embedding of unit [j] being
    the single vector [[call; j]]. *)
Definition echo_response (call : nat) (request : MidrasRequest) : Response :=
  {| status_code := 200;
     text := "";
     json_body :=
       Some (JDict
         [("credits_spent", JInt (Z.of_nat (units_of request)));
          ("embeddings",
           JList (map (fun j => JList [JList [JInt (Z.of_nat call); JInt (Z.of_nat j)]])
                      (seq 0 (units_of request))))]) |}.

Definition echo (pages : list nat) : Collaborators :=
  {| Image := nat;
     Service := nat;
     Index := unit;
     Matches := list ColBERT;
     base64_encode_image := fun n => String (Ascii.ascii_of_nat n) EmptyString;
     convert_from_path := fun _ => Ok pages;
     post := fun _ request calls => (Ok (echo_response calls request), S calls);
     search := fun _ v _ i => (Ok [v], i) |}.

(** A scripted service: it plays back a list of outcomes, one per request,
    and times out when the script is over. *)
Definition scripted (pages : list nat) : Collaborators :=
  {| Image := nat;
     Service := list (result Response);
     Index := unit;
     Matches := list ColBERT;
     base64_encode_image := fun n => String (Ascii.ascii_of_nat n) EmptyString;
     convert_from_path := fun _ => Ok pages;
     post := fun _ _ script =>
               match script with
               | [] => (Err TransportError, [])
               | r :: script' => (r, script')
               end;
     search := fun _ v _ i => (Ok [v], i) |}.

Definition start {C : Collaborators} (s : @Service C) (i : @Index C) : @World C :=
  {| service := s; index := i; requests := []; printed := [] |}.

Definition me : Facade := {| api_key := "k" |}.

(** A 200 response with a body of the expected shape. *)
Definition good_response (credits : Z) (es : list json) : Response :=
  {| status_code := 200;
     text := "";
     json_body := Some (JDict [("credits_spent", JInt credits); ("embeddings", JList es)]) |}.

(** A response with the given status whose body is not JSON. *)
Definition plain_response (status : Z) (body : string) : Response :=
  {| status_code := status; text := body; json_body := None |}.

(** The sizes of the image batches of the requests issued. *)
Definition request_sizes (l : list (string * MidrasRequest)) : list nat :=
  map (fun r => units_of (snd r)) l.

(** The successive values of [image_batch] in the loop of [embed_pdf]: one
    slice per element of the range (none when the range raises). *)
Definition batches {A} (images : list A) (batch_size : Z) : list (list A) :=
  match Py.range 0 (Py.len images) batch_size with
  | Ok steps => map (fun i => Py.slice images i (i + batch_size)) steps
  | Err _ => []
  end.

(** [ceil(n / d)] on integers, for [d > 0] *)
Definition ceil_div (n d : Z) : Z := (n + d - 1) / d.

(** The request [embed_images] builds for a list of images (the same in
    both facades). *)
Definition images_request `{Collaborators} (self : Facade) (mode : Mode)
    (pil_images : list Image) : MidrasRequest :=
  {| key := api_key self;
     mode := mode;
     base64images := Some (base64_encode_image_list pil_images);
     queries := None |}.

(** The request [embed_queries] and [embed_text] build for a list of texts. *)
Definition queries_request (self : Facade) (mode : Mode) (texts : list string)
    : MidrasRequest :=
  {| key := api_key self;
     mode := mode;
     base64images := None;
     queries := Some texts |}.

(** A request carries exactly one kind of payload: images or queries. *)
Definition one_payload (request : MidrasRequest) : bool :=
  match base64images request, queries request with
  | Some _, None | None, Some _ => true
  | _, _ => false
  end.

(** The computation [m] leaves the component [proj] of the world alone. *)
Definition keeps `{Collaborators} {T A : Type} (proj : World -> T) (m : M A) : Prop :=
  forall w, proj (snd (m w)) = proj w.

(** The computation [m] only appends to the trace of requests, and every
    request it appends satisfies [P]. *)
Definition emits `{Collaborators} {A : Type} (P : string * MidrasRequest -> Prop)
    (m : M A) : Prop :=
  forall w, exists added,
    requests (snd (m w)) = requests w ++ added /\ Forall P added.

(** A rasterizer that cannot read the document. *)
Definition unreadable : Collaborators :=
  {| Image := nat;
     Service := nat;
     Index := unit;
     Matches := list ColBERT;
     base64_encode_image := fun n => String (Ascii.ascii_of_nat n) EmptyString;
     convert_from_path := fun _ => Err (CollaboratorError "unreadable");
     post := fun _ request calls => (Ok (echo_response calls request), S calls);
     search := fun _ v _ i => (Ok [v], i) |}.

(** An in-memory store: named indexes, each a list of points, the latest
    first.  [create_index] answers [False] for a name already there;
    [save_points] and [search] raise on a name that is not. *)
Definition shelf : Type := list (string * list (point_id * ColBERT)).

Fixpoint shelf_get (name : string) (i : shelf) : option (list (point_id * ColBERT)) :=
  match i with
  | [] => None
  | (n, pts) :: i' => if String.eqb name n then Some pts else shelf_get name i'
  end.

Fixpoint shelf_put (name : string) (pts : list (point_id * ColBERT)) (i : shelf)
    : shelf :=
  match i with
  | [] => []
  | (n, old) :: i' =>
      if String.eqb name n then (n, pts ++ old) :: i'
      else (n, old) :: shelf_put name pts i'
  end.

Definition shelved : Collaborators :=
  {| Image := nat;
     Service := nat;
     Index := shelf;
     Matches := list point_id;
     base64_encode_image := fun n => String (Ascii.ascii_of_nat n) EmptyString;
     convert_from_path := fun _ => Ok [];
     post := fun _ request calls => (Ok (echo_response calls request), S calls);
     search := fun name _ quantity i =>
                 match shelf_get name i with
                 | Some pts => (Ok (map fst (firstn (Z.to_nat quantity) pts)), i)
                 | None => (Err IndexNotFoundError, i)
                 end |}.

Definition shelved_store : @VectorStore shelved :=
  {| Point := point_id * ColBERT;
     Payload := unit;
     Saved := nat;
     create_index := fun name (i : @Index shelved) =>
                       match shelf_get name i with
                       | Some _ => (Ok false, i)
                       | None => (Ok true, (name, []) :: i)
                       end;
     create_point := fun id embedding _ (i : @Index shelved) => (Ok (id, embedding), i);
     save_points := fun name pts (i : @Index shelved) =>
                      match shelf_get name i with
                      | Some _ => (Ok (List.length pts), shelf_put name pts i)
                      | None => (Err IndexNotFoundError, i)
                      end |}.

(** * Facts about the built-ins *)

Section PyFacts.
Context {A : Type}.
Implicit Types (l : list A) (i j n step : Z).

Lemma range_zero_step start stop :
  Py.range start stop 0 = Err (ValueError "range() arg 3 must not be zero").
Proof. reflexivity. Qed.

Lemma range_negative_step stop step :
  0 <= stop -> step < 0 -> Py.range 0 stop step = Ok [].
Proof.
  intros Hstop Hstep. unfold Py.range, Py.range_length.
  destruct (Z.eqb_spec step 0) as [->|_]; [lia|].
  destruct (Z.ltb_spec 0 step); [lia|].
  destruct (Z.ltb_spec stop 0); [lia|]. reflexivity.
Qed.

Lemma range_length_positive stop step :
  0 <= stop -> 0 < step ->
  Z.of_nat (Py.range_length 0 stop step) = ceil_div stop step.
Proof.
  intros Hstop Hstep. unfold Py.range_length, ceil_div.
  destruct (Z.ltb_spec 0 step); [|lia].
  destruct (Z.ltb_spec 0 stop).
  - rewrite Z.sub_0_r.
    replace (stop + step - 1) with (stop - 1 + 1 * step) by lia.
    rewrite Z.div_add by lia.
    rewrite Z2Nat.id; [reflexivity|].
    assert (0 <= (stop - 1) / step) by (apply Z.div_pos; lia). lia.
  - assert (stop = 0) as -> by lia. simpl.
    symmetry. apply Z.div_small. lia.
Qed.

Lemma range_positive_step stop step :
  0 < step ->
  Py.range 0 stop step =
  Ok (map (fun k => Z.of_nat k * step) (seq 0 (Py.range_length 0 stop step))).
Proof.
  intros Hstep. unfold Py.range.
  destruct (Z.eqb_spec step 0); [lia|]. reflexivity.
Qed.

Lemma len_nonneg l : 0 <= Py.len l.
Proof. unfold Py.len. lia. Qed.

(** A slice [l[i:i+b]] with [i >= 0] and [b > 0] takes [b] elements
    after dropping [i], clamping included. *)
Lemma slice_window l i b :
  0 <= i -> 0 < b ->
  Py.slice l i (i + b) = firstn (Z.to_nat b) (skipn (Z.to_nat i) l).
Proof.
  intros Hi Hb. unfold Py.slice, Py.adjust_index, Py.len.
  set (n := Z.of_nat (List.length l)).
  assert (Hn : n = Z.of_nat (List.length l)) by reflexivity.
  destruct (Z.ltb_spec i 0); [lia|].
  destruct (Z.ltb_spec (i + b) 0); [lia|].
  destruct (Z.leb_spec n i).
  - destruct (Z.leb_spec n (i + b)); [|lia].
    rewrite Z.sub_diag. simpl.
    rewrite (skipn_all2 (n := Z.to_nat i)) by lia.
    now rewrite firstn_nil.
  - destruct (Z.leb_spec n (i + b)).
    + rewrite !firstn_all2; [reflexivity| |]; rewrite length_skipn; lia.
    + f_equal. lia.
Qed.

Lemma concat_windows (b : nat) l (m : nat) :
  concat (map (fun k => firstn b (skipn (k * b) l)) (seq 0 m)) = firstn (m * b) l.
Proof.
  induction m as [|m IH].
  - reflexivity.
  - rewrite seq_S, map_app, concat_app, IH. simpl.
    rewrite app_nil_r.
    rewrite <- (firstn_skipn (m * b) (firstn (b + m * b) l)).
    rewrite firstn_firstn, Nat.min_l by lia.
    f_equal. rewrite skipn_firstn_comm. f_equal. lia.
Qed.

End PyFacts.

Lemma ceil_div_bounds n d :
  0 < d -> (ceil_div n d - 1) * d < n <= ceil_div n d * d.
Proof.
  intros Hd. unfold ceil_div.
  pose proof (Z.div_mod (n + d - 1) d ltac:(lia)) as Hdm.
  pose proof (Z.mod_pos_bound (n + d - 1) d Hd) as Hb.
  nia.
Qed.

Section BatchFacts.
Context {A : Type}.
Implicit Types (l : list A) (bs : Z).

(** For a positive batch size the batches are the windows of
    [batch_size] elements at offsets [0, batch_size, 2 batch_size, ...]. *)
Lemma batches_windows l bs :
  0 < bs ->
  batches l bs =
  map (fun k => firstn (Z.to_nat bs) (skipn (k * Z.to_nat bs) l))
      (seq 0 (Py.range_length 0 (Py.len l) bs)).
Proof.
  intros Hbs. unfold batches.
  rewrite range_positive_step by assumption.
  rewrite map_map. apply map_ext. intros k.
  rewrite slice_window by lia.
  do 2 f_equal. rewrite Z2Nat.inj_mul, Nat2Z.id by lia. reflexivity.
Qed.

Lemma batches_count l bs :
  0 < bs -> Z.of_nat (length (batches l bs)) = ceil_div (Py.len l) bs.
Proof.
  intros Hbs. rewrite batches_windows by assumption.
  rewrite length_map, length_seq.
  apply range_length_positive; [apply len_nonneg | assumption].
Qed.

Lemma batches_concat l bs :
  0 < bs -> concat (batches l bs) = l.
Proof.
  intros Hbs. rewrite batches_windows by assumption.
  rewrite concat_windows. apply firstn_all2.
  pose proof (range_length_positive (Py.len l) bs (len_nonneg l) Hbs) as Hc.
  pose proof (ceil_div_bounds (Py.len l) bs Hbs) as Hb.
  unfold Py.len in *. nia.
Qed.

Lemma batches_sizes l bs :
  0 < bs ->
  map (@length A) (batches l bs) =
  map (fun k => Nat.min (Z.to_nat bs) (length l - k * Z.to_nat bs))
      (seq 0 (length (batches l bs))).
Proof.
  intros Hbs. rewrite batches_windows by assumption.
  rewrite length_map, length_seq, map_map.
  apply map_ext. intros k. now rewrite length_firstn, length_skipn.
Qed.

(** Every batch but the last is full. *)
Lemma batches_full l bs k :
  0 < bs -> (S k < length (batches l bs))%nat ->
  length (nth k (batches l bs) []) = Z.to_nat bs.
Proof.
  intros Hbs Hk.
  pose proof (batches_count l bs Hbs) as Hc.
  pose proof (ceil_div_bounds (Py.len l) bs Hbs) as Hb.
  change (length (nth k (batches l bs) [])) with
    (length (nth k (batches l bs) (@nil A))).
  rewrite <- (map_nth (@length A)).
  rewrite batches_sizes by assumption.
  simpl length.
  rewrite (nth_indep _ 0%nat (Nat.min (Z.to_nat bs) (length l - 0 * Z.to_nat bs)))
    by (rewrite length_map, length_seq; lia).
  rewrite (map_nth (fun k => Nat.min (Z.to_nat bs) (length l - k * Z.to_nat bs))).
  rewrite seq_nth by lia. simpl.
  unfold Py.len in *. nia.
Qed.

(** No batch is empty and none exceeds the batch size. *)
Lemma batches_bounded l bs :
  0 < bs ->
  Forall (fun b => (1 <= length b <= Z.to_nat bs)%nat) (batches l bs).
Proof.
  intros Hbs.
  pose proof (batches_count l bs Hbs) as Hc.
  pose proof (ceil_div_bounds (Py.len l) bs Hbs) as Hb.
  apply Forall_map with (f := @length A) (P := fun n => (1 <= n <= Z.to_nat bs)%nat).
  rewrite batches_sizes by assumption.
  apply Forall_map, Forall_forall. intros k Hk.
  apply in_seq in Hk. unfold Py.len in *. nia.
Qed.

Lemma batches_nonpositive l bs :
  bs <= 0 -> batches l bs = [].
Proof.
  intros Hbs. unfold batches.
  destruct (Z.eq_dec bs 0) as [->|Hne]; [reflexivity|].
  rewrite range_negative_step; [reflexivity | apply len_nonneg | lia].
Qed.

Lemma batches_nil bs : batches (@nil A) bs = [].
Proof.
  unfold batches, Py.range, Py.range_length. simpl.
  destruct (bs =? 0); [reflexivity|].
  destruct (0 <? bs); reflexivity.
Qed.

End BatchFacts.

(** * Facts about the runtime *)

Section RuntimeFacts.
Context `{C : Collaborators}.

Lemma for_in_map {X Y St} (g : X -> Y) (body : Y -> St -> M St) xs st w :
  for_in xs (fun x => body (g x)) st w = for_in (map g xs) body st w.
Proof.
  revert st w. induction xs as [|x xs IH]; intros st w; simpl.
  - reflexivity.
  - unfold bind. destruct (body (g x) st w) as [[st'|e] w']; [apply IH|reflexivity].
Qed.

Lemma call_each_Forall {X B} (P : B -> Prop) (call : X -> M B) :
  (forall x w a w', call x w = (Ok a, w') -> P a) ->
  forall xs w rs w', call_each call xs w = (Ok rs, w') -> Forall P rs.
Proof.
  intros HP. induction xs as [|x xs IH]; intros w rs w' Hrun; simpl in Hrun.
  - inversion Hrun. constructor.
  - unfold bind, ret in Hrun.
    destruct (call x w) as [[a|e] w1] eqn:Hx; [|discriminate].
    destruct (call_each call xs w1) as [[l|e] w2] eqn:Hxs; [|discriminate].
    inversion Hrun; subst. constructor; eauto.
Qed.

Lemma call_each_length {X B} (call : X -> M B) xs w rs w' :
  call_each call xs w = (Ok rs, w') -> length rs = length xs.
Proof.
  revert w rs w'. induction xs as [|x xs IH]; intros w rs w' Hrun; simpl in Hrun.
  - now inversion Hrun.
  - unfold bind, ret in Hrun.
    destruct (call x w) as [[a|e] w1] eqn:Hx; [|discriminate].
    destruct (call_each call xs w1) as [[l|e] w2] eqn:Hxs; [|discriminate].
    inversion Hrun; subst. simpl. f_equal. eauto.
Qed.

(** Calls up to a failing one: the failure is the outcome of the whole
    sequence. *)
Lemma call_each_failure {X B} (call : X -> M B) pre x post w rs w1 e w2 :
  call_each call pre w = (Ok rs, w1) ->
  call x w1 = (Err e, w2) ->
  call_each call (pre ++ x :: post) w = (Err e, w2).
Proof.
  revert w rs. induction pre as [|p pre IH]; intros w rs Hpre Hx; simpl in *.
  - inversion Hpre; subst. unfold bind. now rewrite Hx.
  - unfold bind, ret in *.
    destruct (call p w) as [[a|e'] w'] eqn:Hp; [|discriminate].
    destruct (call_each call pre w') as [[l|e'] w''] eqn:Hrest; [|discriminate].
    inversion Hpre; subst.
    now rewrite (IH _ _ Hrest Hx).
Qed.

Lemma sum_nonneg l : Forall (fun z => 0 <= z) l -> 0 <= Py.sum l.
Proof. induction 1; simpl; lia. Qed.

Lemma MidrasResponse_init_Ok c es im r :
  MidrasResponse_init c es im = Ok r ->
  0 <= c /\ r = {| credits_spent := c; embeddings := es; images := im |}.
Proof.
  unfold MidrasResponse_init. destruct (Z.ltb_spec c 0); [discriminate|].
  intros [= <-]. split; [assumption|reflexivity].
Qed.

Lemma MidrasResponse_init_nonneg c es im :
  0 <= c ->
  MidrasResponse_init c es im =
  Ok {| credits_spent := c; embeddings := es; images := im |}.
Proof.
  intros Hc. unfold MidrasResponse_init. destruct (Z.ltb_spec c 0); [lia|reflexivity].
Qed.

Lemma MidrasResponse_of_json_nonneg x r :
  MidrasResponse_of_json x = Ok r -> 0 <= credits_spent r.
Proof.
  unfold MidrasResponse_of_json. intros Hx.
  repeat match type of Hx with
         | match ?t with _ => _ end = _ => destruct t; try discriminate
         end;
    apply MidrasResponse_init_Ok in Hx as [Hc ->]; exact Hc.
Qed.

End RuntimeFacts.

(** * Facts about the cooperative facade *)

Section AsyncFacts.
Context `{C : Collaborators}.
Implicit Types (self : Facade) (w : World) (r : MidrasResponse).

Lemma call_each_trace {X B} (call : X -> M B) (f : X -> string * MidrasRequest) :
  (forall x w, requests (snd (call x w)) = requests w ++ [f x]) ->
  forall xs w rs w',
    call_each call xs w = (Ok rs, w') -> requests w' = requests w ++ map f xs.
Proof.
  intros Hcall. induction xs as [|x xs IH]; intros w rs w' Hrun; simpl in Hrun.
  - inversion Hrun; subst. simpl. now rewrite app_nil_r.
  - unfold bind, ret in Hrun.
    pose proof (Hcall x w) as Hx.
    destruct (call x w) as [[a|e] w1]; [|discriminate].
    destruct (call_each call xs w1) as [[l|e] w2] eqn:Hxs; [|discriminate].
    inversion Hrun; subst. simpl in *.
    rewrite (IH _ _ _ Hxs), Hx, <- app_assoc. reflexivity.
Qed.

Lemma validate_response_nonneg response r :
  AsyncMidras.validate_response response = Ok r -> 0 <= credits_spent r.
Proof.
  unfold AsyncMidras.validate_response.
  destruct (500 <=? status_code response); [discriminate|].
  destruct (Response_json response); [|discriminate].
  apply MidrasResponse_of_json_nonneg.
Qed.

(** One call of [embed_images]: one request, then validation. *)
Lemma async_embed_images_run self pil_images mode w :
  AsyncMidras.embed_images self pil_images mode w =
  let request := images_request self mode pil_images in
  let (outcome, s) := post "/embed/images" request (service w) in
  let w' := {| service := s;
               index := index w;
               requests := requests w ++ [("/embed/images", request)];
               printed := printed w |} in
  match outcome with
  | Ok response => (AsyncMidras.validate_response response, w')
  | Err e => (Err e, w')
  end.
Proof.
  unfold AsyncMidras.embed_images, bind, client_post, lift, images_request. simpl.
  destruct (post _ _ _) as [[response|e] s]; reflexivity.
Qed.

Lemma async_embed_images_requests self pil_images mode w :
  requests (snd (AsyncMidras.embed_images self pil_images mode w)) =
  requests w ++ [("/embed/images", images_request self mode pil_images)].
Proof.
  rewrite async_embed_images_run. simpl.
  destruct (post _ _ _) as [[response|e] s]; reflexivity.
Qed.

Lemma async_embed_images_nonneg self pil_images mode w r w' :
  AsyncMidras.embed_images self pil_images mode w = (Ok r, w') ->
  0 <= credits_spent r.
Proof.
  rewrite async_embed_images_run. simpl.
  destruct (post _ _ _) as [[response|e] s]; [|discriminate].
  intros [= Hv _]. now apply validate_response_nonneg in Hv.
Qed.

(** The loop of [embed_pdf] over its batches, against the plain sequence
    of calls. *)
Lemma async_loop {X} (call : X -> M MidrasResponse) xs es t w :
  for_in xs
    (fun x '(embeddings', total_spent) =>
       bind (call x) (fun response =>
         ret (embeddings' ++ embeddings response,
              total_spent + credits_spent response)))
    (es, t) w =
  match call_each call xs w with
  | (Ok rs, w') =>
      (Ok (es ++ concat (map embeddings rs),
           t + Py.sum (map credits_spent rs)), w')
  | (Err e, w') => (Err e, w')
  end.
Proof.
  revert es t w. induction xs as [|x xs IH]; intros es t w; simpl.
  - unfold ret. now rewrite app_nil_r, Z.add_0_r.
  - unfold bind, ret in *.
    destruct (call x w) as [[r|e] w1]; [|reflexivity].
    rewrite IH.
    destruct (call_each call xs w1) as [[rs|e] w2]; [|reflexivity].
    simpl. now rewrite <- app_assoc, Z.add_assoc.
Qed.

(** [AsyncMidras.embed_pdf] for a non-zero batch size: the batches are
    embedded one after the other, and the responses folded. *)
Lemma async_embed_pdf_run self pdf_path batch_size include_images w pages :
  convert_from_path pdf_path = Ok pages ->
  batch_size <> 0 ->
  AsyncMidras.embed_pdf self pdf_path batch_size include_images w =
  match call_each (fun b => AsyncMidras.embed_images self b "standard")
                  (batches pages batch_size) w with
  | (Ok rs, w') =>
      (Ok {| credits_spent := Py.sum (map credits_spent rs);
             embeddings := concat (map embeddings rs);
             images := if include_images then Some pages else None |}, w')
  | (Err e, w') => (Err e, w')
  end.
Proof.
  intros Hpages Hbs.
  unfold AsyncMidras.embed_pdf, batches.
  unfold bind at 1. unfold lift at 1. rewrite Hpages.
  unfold bind at 1. unfold lift at 1.
  unfold Py.range. destruct (Z.eqb_spec batch_size 0); [contradiction|].
  set (steps := map _ (seq 0 _)).
  unfold bind at 1.
  rewrite (for_in_map (fun i => Py.slice pages i (i + batch_size))
             (fun b '(embeddings', total_spent) =>
                bind (AsyncMidras.embed_images self b "standard") (fun response =>
                  ret (embeddings' ++ embeddings response,
                       total_spent + credits_spent response)))).
  rewrite async_loop.
  destruct (call_each _ _ w) as [[rs|e] w'] eqn:Hrun; [|reflexivity].
  unfold lift. simpl.
  rewrite MidrasResponse_init_nonneg; [reflexivity|].
  apply sum_nonneg, Forall_map.
  eapply call_each_Forall; [|exact Hrun].
  intros b w0 r w0'. apply async_embed_images_nonneg.
Qed.

End AsyncFacts.

(** * Facts about the blocking facade *)

Section SyncFacts.
Context `{C : Collaborators}.
Implicit Types (self : Facade) (w : World).

(** One call of [embed_images]: one request, the status code printed,
    and the decoded body handed back without validation. *)
Lemma sync_embed_images_run self pil_images mode w :
  Midras.embed_images self pil_images mode w =
  let request := images_request self mode pil_images in
  let (outcome, s) := post "/embed/images" request (service w) in
  match outcome with
  | Ok response =>
      (Response_json response,
       {| service := s;
          index := index w;
          requests := requests w ++ [("/embed/images", request)];
          printed := printed w ++ [status_code response] |})
  | Err e =>
      (Err e,
       {| service := s;
          index := index w;
          requests := requests w ++ [("/embed/images", request)];
          printed := printed w |})
  end.
Proof.
  unfold Midras.embed_images, bind, client_post, print, lift, images_request. simpl.
  destruct (post _ _ _) as [[response|e] s]; reflexivity.
Qed.

Lemma sync_embed_images_requests self pil_images mode w :
  requests (snd (Midras.embed_images self pil_images mode w)) =
  requests w ++ [("/embed/images", images_request self mode pil_images)].
Proof.
  rewrite sync_embed_images_run. simpl.
  destruct (post _ _ _) as [[response|e] s]; reflexivity.
Qed.

(** The loop of [Midras.embed_pdf] never gets past its first batch: the
    attribute access on the decoded body raises. *)
Lemma sync_loop {X} (call : X -> M json) xs (st : list ColBERT * Z) w :
  for_in xs
    (fun x '(embeddings', total_spent) =>
       bind (call x) (fun response =>
         bind (lift (json_getattr response "embeddings")) (fun extension =>
           bind (lift (json_getattr response "credits_spent")) (fun spent =>
             ret (embeddings' ++ extension, total_spent + spent)))))
    st w =
  match xs with
  | [] => (Ok st, w)
  | x :: _ =>
      match call x w with
      | (Ok _, w') => (Err (AttributeError "embeddings"), w')
      | (Err e, w') => (Err e, w')
      end
  end.
Proof.
  destruct xs as [|x xs]; simpl; [reflexivity|].
  destruct st as [es t]. unfold bind, lift, json_getattr.
  destruct (call x w) as [[j|e] w']; reflexivity.
Qed.

(** [Midras.embed_pdf] for a non-zero batch size. *)
Lemma sync_embed_pdf_run self pdf_path batch_size include_images w pages :
  convert_from_path pdf_path = Ok pages ->
  batch_size <> 0 ->
  Midras.embed_pdf self pdf_path batch_size include_images w =
  match batches pages batch_size with
  | [] =>
      (Ok {| credits_spent := 0;
             embeddings := [];
             images := if include_images then Some pages else None |}, w)
  | b :: _ =>
      match Midras.embed_images self b "standard" w with
      | (Ok _, w') => (Err (AttributeError "embeddings"), w')
      | (Err e, w') => (Err e, w')
      end
  end.
Proof.
  intros Hpages Hbs.
  unfold Midras.embed_pdf, batches.
  unfold bind at 1. unfold lift at 1. rewrite Hpages.
  unfold bind at 1. unfold lift at 1.
  unfold Py.range. destruct (Z.eqb_spec batch_size 0); [contradiction|].
  set (steps := map _ (seq 0 _)).
  unfold bind at 1.
  rewrite (for_in_map (fun i => Py.slice pages i (i + batch_size))
             (fun b '(embeddings', total_spent) =>
                bind (Midras.embed_images self b "standard") (fun response =>
                  bind (lift (json_getattr response "embeddings")) (fun extension =>
                    bind (lift (json_getattr response "credits_spent")) (fun spent =>
                      ret (embeddings' ++ extension, total_spent + spent)))))).
  rewrite sync_loop.
  destruct (map _ steps) as [|b bs]; [reflexivity|].
  destruct (Midras.embed_images self b "standard" w) as [[j|e] w']; reflexivity.
Qed.

End SyncFacts.

(** * Facts shared by the two facades *)

Section SharedFacts.
Context `{C : Collaborators}.
Implicit Types (self : Facade) (w : World) (include_images : bool)
  (pages : list Image).

(** A zero batch size makes [range] raise, after rasterization and before
    any request. *)
Lemma embed_pdf_zero_batch_size self pdf_path include_images w pages :
  convert_from_path pdf_path = Ok pages ->
  Midras.embed_pdf self pdf_path 0 include_images w =
    (Err (ValueError "range() arg 3 must not be zero"), w) /\
  AsyncMidras.embed_pdf self pdf_path 0 include_images w =
    (Err (ValueError "range() arg 3 must not be zero"), w).
Proof.
  intros Hpages.
  unfold Midras.embed_pdf, AsyncMidras.embed_pdf, bind, lift.
  rewrite Hpages. split; reflexivity.
Qed.

(** With no batch to embed, [embed_pdf] returns the empty aggregate and
    leaves the world as it was. *)
Lemma embed_pdf_no_batch self pdf_path batch_size include_images w pages :
  convert_from_path pdf_path = Ok pages ->
  batch_size <> 0 ->
  batches pages batch_size = [] ->
  let empty := {| credits_spent := 0;
                  embeddings := [];
                  images := if include_images then Some pages else None |} in
  Midras.embed_pdf self pdf_path batch_size include_images w = (Ok empty, w) /\
  AsyncMidras.embed_pdf self pdf_path batch_size include_images w = (Ok empty, w).
Proof.
  intros Hpages Hbs Hnone. simpl. split.
  - rewrite (sync_embed_pdf_run _ _ _ _ _ _ Hpages Hbs), Hnone. reflexivity.
  - rewrite (async_embed_pdf_run _ _ _ _ _ _ Hpages Hbs), Hnone. reflexivity.
Qed.

End SharedFacts.

(** * The batching pipeline *)

Section Pipeline.
Context `{C : Collaborators}.
Implicit Types (self : Facade) (w : World) (include_images : bool)
  (pages : list Image) (batch_size : Z).

Lemma batches_nonempty_positive pages batch_size :
  batches pages batch_size <> [] -> 0 < batch_size.
Proof.
  intros Hne. destruct (Z.ltb_spec 0 batch_size) as [Hpos|Hle]; [assumption|].
  now rewrite batches_nonpositive in Hne.
Qed.

(** X1: The cooperative pipeline on a positive batch size, when every batch
    request succeeds: the pages are cut into contiguous batches in their
    order, all full but possibly the last, one request is issued per batch,
    [ceil(n / batch_size)] in all, and the aggregate is the concatenation
    of the responses' embeddings in batch order. *)
Lemma async_embed_pdf_batched self pdf_path batch_size include_images w pages rs w' :
  convert_from_path pdf_path = Ok pages ->
  0 < batch_size ->
  call_each (fun b => AsyncMidras.embed_images self b "standard")
            (batches pages batch_size) w = (Ok rs, w') ->
  concat (batches pages batch_size) = pages /\
  Forall (fun b => (1 <= length b <= Z.to_nat batch_size)%nat)
         (batches pages batch_size) /\
  (forall k, (S k < length (batches pages batch_size))%nat ->
             length (nth k (batches pages batch_size) []) = Z.to_nat batch_size) /\
  Z.of_nat (length (batches pages batch_size)) = ceil_div (Py.len pages) batch_size /\
  requests w' =
    requests w ++
    map (fun b => ("/embed/images", images_request self "standard" b))
        (batches pages batch_size) /\
  length rs = length (batches pages batch_size) /\
  AsyncMidras.embed_pdf self pdf_path batch_size include_images w =
    (Ok {| credits_spent := Py.sum (map credits_spent rs);
           embeddings := concat (map embeddings rs);
           images := if include_images then Some pages else None |}, w').
Proof.
  intros Hpages Hbs Hrun.
  split; [now apply batches_concat|].
  split; [now apply batches_bounded|].
  split; [intros k Hk; now apply batches_full|].
  split; [now apply batches_count|].
  split.
  { eapply call_each_trace; [|exact Hrun].
    intros b w0. apply async_embed_images_requests. }
  split; [eapply call_each_length; exact Hrun|].
  rewrite (async_embed_pdf_run _ _ _ _ _ _ Hpages) by lia.
  now rewrite Hrun.
Qed.

(** The first batch of a document with pages is made of its first
    [batch_size] pages. *)
Lemma batches_head pages batch_size :
  0 < batch_size -> pages <> [] ->
  exists rest, batches pages batch_size = firstn (Z.to_nat batch_size) pages :: rest.
Proof.
  intros Hbs Hne.
  pose proof (batches_concat pages batch_size Hbs) as Hconcat.
  rewrite batches_windows in * by assumption.
  destruct (Py.range_length 0 (Py.len pages) batch_size) as [|n].
  - simpl in Hconcat. now subst pages.
  - simpl. eexists. reflexivity.
Qed.

(** X2: The blocking pipeline on a document with pages and a positive batch
    size: one request, for the first [batch_size] pages, and then an
    exception, that of [embed_images] or else the [AttributeError] of the
    attribute access on the decoded body. *)
Lemma sync_embed_pdf_stops self pdf_path batch_size include_images w pages :
  convert_from_path pdf_path = Ok pages ->
  0 < batch_size ->
  pages <> [] ->
  let first_batch := firstn (Z.to_nat batch_size) pages in
  Midras.embed_pdf self pdf_path batch_size include_images w =
    match Midras.embed_images self first_batch "standard" w with
    | (Ok _, w') => (Err (AttributeError "embeddings"), w')
    | (Err e, w') => (Err e, w')
    end /\
  is_ok (fst (Midras.embed_pdf self pdf_path batch_size include_images w)) = false /\
  requests (snd (Midras.embed_pdf self pdf_path batch_size include_images w)) =
    requests w ++ [("/embed/images", images_request self "standard" first_batch)].
Proof.
  intros Hpages Hbs Hne first_batch.
  rewrite (sync_embed_pdf_run _ _ _ _ _ _ Hpages) by lia.
  destruct (batches_head pages batch_size Hbs Hne) as [rest ->].
  fold first_batch.
  pose proof (sync_embed_images_requests self first_batch "standard" w) as Hreq.
  destruct (Midras.embed_images self first_batch "standard" w) as [[j|e] w1];
    (split; [reflexivity | split; [reflexivity | exact Hreq]]).
Qed.

End Pipeline.

(** * The claims *)

(** C1: a document of 23 pages embedded with [batch_size = 10] against a
    service that answers every request with 200 and a well-formed body.
    [AsyncMidras.embed_pdf] issues three requests, of 10, 10 and 3 images,
    and returns the 23 embeddings in page order.  [Midras.embed_pdf] issues
    the first request only and raises [AttributeError]: [Midras.embed_images]
    hands back the decoded body, which has no [embeddings] attribute. *)
Theorem embed_pdf_23_pages :
  let C := echo (seq 0 23) in
  let w := @start C 0%nat tt in
  let blocking := @Midras.embed_pdf C me "doc.pdf" 10 false w in
  let cooperative := @AsyncMidras.embed_pdf C me "doc.pdf" 10 false w in
  fst blocking = Err (AttributeError "embeddings") /\
  request_sizes (requests (snd blocking)) = [10%nat] /\
  request_sizes (requests (snd cooperative)) = [10; 10; 3]%nat /\
  fst cooperative =
    Ok {| credits_spent := 23;
          embeddings :=
            map (fun p => [[inject_Z (Z.of_nat (p / 10)); inject_Z (Z.of_nat (p mod 10))]])
                (seq 0 23);
          images := None |}.
Proof.
  repeat split; vm_compute; reflexivity.
Qed.

(** C2, as stated, fails: on [AsyncMidras.embed_images], a 500 response
    raises [ValueError] with the body, not [ServiceError]; a 404 response
    whose body has the expected shape is accepted; a 200 response without
    the [embeddings] field raises the model's [ValidationError], not
    [MalformedResponseError]. *)
Lemma validation_taxonomy_counterexample :
  let C := scripted [] in
  let run response :=
    fst (@AsyncMidras.embed_images C me [0%nat] "standard"
           (@start C [Ok response] tt)) in
  let accepted := {| status_code := 404;
                     text := "";
                     json_body := json_body (good_response 1 [JList [JList [JInt 7]]]) |} in
  let incomplete := {| status_code := 200;
                       text := "";
                       json_body := Some (JDict [("credits_spent", JInt 1)]) |} in
  (run (plain_response 500 "boom") = Err (ValueError "boom") /\
   run (plain_response 500 "boom") <> Err (ServiceError "boom")) /\
  (is_ok (run accepted) = true /\
   run accepted <> Err RequestRejectedError) /\
  (run incomplete = Err ValidationError /\
   run incomplete <> Err MalformedResponseError).
Proof.
  repeat split; try (vm_compute; reflexivity); vm_compute; discriminate.
Qed.

(** C2, amended: for every embedding operation of [AsyncMidras]
    ([embed_images], [embed_text]) the outcome is [validate_response] of the
    response received; a status of 500 or more raises [ValueError] carrying
    the raw response body; any lower status, 4xx included, is not classified:
    the body is decoded and built into a [MidrasResponse], and a decoded
    object lacking [credits_spent] or [embeddings] raises the model's
    [ValidationError]. *)
Theorem async_response_validation `{C : Collaborators} (self : Facade) (mode : Mode)
    (pil_images : list Image) (texts : list string) (w : World) :
  (forall response s,
     post "/embed/images" (images_request self mode pil_images) (service w)
       = (Ok response, s) ->
     fst (AsyncMidras.embed_images self pil_images mode w)
       = AsyncMidras.validate_response response) /\
  (forall response s,
     post "" (queries_request self mode texts) (service w) = (Ok response, s) ->
     fst (AsyncMidras.embed_text self texts mode w)
       = AsyncMidras.validate_response response) /\
  (forall response,
     500 <= status_code response ->
     AsyncMidras.validate_response response = Err (ValueError (text response))) /\
  (forall response,
     status_code response < 500 ->
     AsyncMidras.validate_response response =
     match json_body response with
     | Some x => MidrasResponse_of_json x
     | None => Err JSONDecodeError
     end) /\
  (forall d,
     dict_get "credits_spent" d = None \/ dict_get "embeddings" d = None ->
     MidrasResponse_of_json (JDict d) = Err ValidationError).
Proof.
  repeat split.
  - intros response s Hpost. rewrite async_embed_images_run. simpl.
    now rewrite Hpost.
  - intros response s Hpost.
    unfold AsyncMidras.embed_text, bind, client_post, lift.
    change {| key := api_key self; mode := mode; base64images := None;
              queries := Some texts |} with (queries_request self mode texts).
    now rewrite Hpost.
  - intros response Hstatus. unfold AsyncMidras.validate_response.
    destruct (Z.leb_spec 500 (status_code response)); [reflexivity|lia].
  - intros response Hstatus. unfold AsyncMidras.validate_response, Response_json.
    destruct (Z.leb_spec 500 (status_code response)); [lia|].
    destruct (json_body response); reflexivity.
  - intros d [Hd|Hd]; unfold MidrasResponse_of_json; rewrite Hd.
    + reflexivity.
    + destruct (dict_get "credits_spent" d) as [[]|]; reflexivity.
Qed.

(** The validation at work: a 503 on [embed_images], and a 404 whose body
    lacks [embeddings] on [embed_text]. *)
Lemma async_response_validation_witness :
  let C := scripted [] in
  let failure := plain_response 503 "overloaded" in
  let incomplete := {| status_code := 404;
                       text := "";
                       json_body := Some (JDict [("credits_spent", JInt 1)]) |} in
  fst (@AsyncMidras.embed_images C me [0%nat] "standard" (@start C [Ok failure] tt))
    = Err (ValueError "overloaded") /\
  fst (@AsyncMidras.embed_text C me ["q"] "standard" (@start C [Ok incomplete] tt))
    = Err ValidationError.
Proof.
  intros C failure incomplete.
  pose proof (@async_response_validation C me "standard" [0%nat] ["q"]
                (@start C [Ok failure] tt)) as (Himages & _ & Hfault & _).
  pose proof (@async_response_validation C me "standard" [0%nat] ["q"]
                (@start C [Ok incomplete] tt)) as (_ & Htext & _ & Hlow & Hshape).
  split.
  - rewrite (Himages failure [] eq_refl).
    apply Hfault. simpl. lia.
  - rewrite (Htext incomplete [] eq_refl).
    rewrite Hlow by (simpl; lia).
    apply Hshape. right. reflexivity.
Defined.

(** C3: the two facades on the same inputs, against the same well-behaved
    service.  A one-page document: [Midras.embed_pdf] raises
    [AttributeError], [AsyncMidras.embed_pdf] returns the aggregate.  A
    query: [Midras.query] raises [AttributeError], [AsyncMidras.query_text]
    returns the matches; the former posts to ["/embed/queries"], the latter
    to the empty path.  A 500 response with a JSON body:
    [Midras.embed_images] returns the body, [AsyncMidras.embed_images]
    raises [ValueError]. *)
Theorem facades_disagree :
  let C := echo [0%nat] in
  let w := @start C 0%nat tt in
  let S := scripted [] in
  let fault := {| status_code := 500;
                  text := "down";
                  json_body := Some (JDict [("detail", JStr "down")]) |} in
  let ws := @start S [Ok fault] tt in
  (fst (@Midras.embed_pdf C me "doc.pdf" 10 false w)
     = Err (AttributeError "embeddings") /\
   fst (@AsyncMidras.embed_pdf C me "doc.pdf" 10 false w)
     = Ok {| credits_spent := 1;
             embeddings := [[[inject_Z 0; inject_Z 0]]];
             images := None |}) /\
  (fst (@Midras.query C me "idx" "q" 5 w) = Err (AttributeError "embeddings") /\
   fst (@AsyncMidras.query_text C me "idx" "q" 5 w)
     = Ok [[[inject_Z 0; inject_Z 0]]] /\
   map fst (requests (snd (@Midras.query C me "idx" "q" 5 w))) = ["/embed/queries"] /\
   map fst (requests (snd (@AsyncMidras.query_text C me "idx" "q" 5 w))) = [""]) /\
  (fst (@Midras.embed_images S me [0%nat] "standard" ws)
     = Ok (JDict [("detail", JStr "down")]) /\
   fst (@AsyncMidras.embed_images S me [0%nat] "standard" ws)
     = Err (ValueError "down")).
Proof.
  repeat split; vm_compute; reflexivity.
Qed.

Section Query.
Context `{C : Collaborators}.
Implicit Types (self : Facade) (w : World).

(** X14: [AsyncMidras.query_text] indexes the embeddings of the response
    without looking at their number: when there is none the indexing
    raises [IndexError], and the store is not searched. *)
Lemma async_query_text_empty self name text quantity w r w' :
  AsyncMidras.embed_text self [text] "standard" w = (Ok r, w') ->
  embeddings r = [] ->
  AsyncMidras.query_text self name text quantity w = (Err IndexError, w').
Proof.
  intros Hembed Hempty. unfold AsyncMidras.query_text, bind.
  rewrite Hembed. unfold lift. now rewrite Hempty.
Qed.

(** X15: [Midras.query] never reaches the indexing, nor the store. *)
Lemma sync_query_stops self name text quantity w :
  is_ok (fst (Midras.query self name text quantity w)) = false /\
  index (snd (Midras.query self name text quantity w)) = index w.
Proof.
  unfold Midras.query, Midras.embed_queries, bind, client_post, lift, json_getattr.
  destruct (post _ _ _) as [[response|e] s]; simpl.
  - destruct (Response_json response); split; reflexivity.
  - split; reflexivity.
Qed.

End Query.

(** C9: a query answered by a well-formed response whose [embeddings]
    sequence is empty.  [AsyncMidras.query_text] raises [IndexError] on the
    indexing.  [Midras.query] raises [AttributeError] before it: the value
    [embed_queries] returns is the decoded body.  Neither exception belongs
    to the taxonomy. *)
Theorem query_empty_embeddings :
  let C := scripted [] in
  let w := @start C [Ok (good_response 0 [])] tt in
  fst (@AsyncMidras.query_text C me "idx" "q" 5 w) = Err IndexError /\
  fst (@Midras.query C me "idx" "q" 5 w) = Err (AttributeError "embeddings") /\
  in_taxonomy IndexError = false /\
  in_taxonomy (AttributeError "embeddings") = false.
Proof.
  repeat split; vm_compute; reflexivity.
Qed.

(** When [AsyncMidras.embed_pdf] returns a response, its [credits_spent]
    is the sum of the [credits_spent] of the responses to the successive
    [embed_images] calls on its batches. *)
Lemma async_embed_pdf_credits_sum `{C : Collaborators} (self : Facade)
    (pdf_path : string) (batch_size : Z) (include_images : bool) (w : World)
    (pages : list Image) (r : MidrasResponse) (w' : World) :
  convert_from_path pdf_path = Ok pages ->
  AsyncMidras.embed_pdf self pdf_path batch_size include_images w = (Ok r, w') ->
  exists rs,
    call_each (fun b => AsyncMidras.embed_images self b "standard")
              (batches pages batch_size) w = (Ok rs, w') /\
    credits_spent r = Py.sum (map credits_spent rs).
Proof.
  intros Hpages.
  destruct (Z.eq_dec batch_size 0) as [->|Hbs].
  { destruct (embed_pdf_zero_batch_size self pdf_path include_images w pages Hpages)
      as [_ Ha].
    rewrite Ha. discriminate. }
  rewrite (async_embed_pdf_run _ _ _ _ _ _ Hpages Hbs).
  destruct (call_each _ _ w) as [[rs|e] w1] eqn:Hrun; [|discriminate].
  intros [= <- <-]. exists rs. split; reflexivity.
Qed.

(** C4: a document of three pages embedded with [batch_size = 2] against a
    service that answers both batch requests with 200 and a well-formed
    body, of 2 and 1 credits.  Every chunk response is successful, in both
    facades.  [AsyncMidras.embed_pdf] returns an aggregate whose
    [credits_spent] is 3, the sum.  [Midras.embed_pdf] returns no aggregate:
    it raises [AttributeError] on the first response, which is the decoded
    body, before anything is summed. *)
Theorem embed_pdf_credits_of_successful_batches :
  let C := echo [0; 1; 2]%nat in
  let w := @start C 0%nat tt in
  let credits_of (body : json) :=
    match body with
    | JDict d => dict_get "credits_spent" d
    | _ => None
    end in
  (exists bodies w',
     call_each (fun b => @Midras.embed_images C me b "standard")
               (batches [0; 1; 2]%nat 2) w = (Ok bodies, w') /\
     map credits_of bodies = [Some (JInt 2); Some (JInt 1)]) /\
  fst (@Midras.embed_pdf C me "doc.pdf" 2 false w)
    = Err (AttributeError "embeddings") /\
  (exists rs w',
     call_each (fun b => @AsyncMidras.embed_images C me b "standard")
               (batches [0; 1; 2]%nat 2) w = (Ok rs, w') /\
     map credits_spent rs = [2; 1]) /\
  (exists r,
     fst (@AsyncMidras.embed_pdf C me "doc.pdf" 2 false w) = Ok r /\
     credits_spent r = 3).
Proof.
  intros C w credits_of. split; [|split; [|split]].
  - eexists. eexists. split; [vm_compute; reflexivity|]. reflexivity.
  - vm_compute. reflexivity.
  - eexists. eexists. split; [vm_compute; reflexivity|]. reflexivity.
  - eexists. split; [vm_compute; reflexivity|]. reflexivity.
Qed.

(** C5, as stated, fails: with a negative batch size [embed_pdf] returns a
    response, and with a zero batch size it raises the [ValueError] of
    [range], not [InvalidConfigurationError]. *)
Lemma batch_size_nonpositive_counterexample :
  let C := echo [0; 1; 2]%nat in
  let w := @start C 0%nat tt in
  let empty := {| credits_spent := 0; embeddings := []; images := None |} in
  let zero_step := ValueError "range() arg 3 must not be zero" in
  (fst (@Midras.embed_pdf C me "doc.pdf" (-1) false w) = Ok empty /\
   fst (@AsyncMidras.embed_pdf C me "doc.pdf" (-1) false w) = Ok empty) /\
  (fst (@Midras.embed_pdf C me "doc.pdf" 0 false w) = Err zero_step /\
   fst (@AsyncMidras.embed_pdf C me "doc.pdf" 0 false w) = Err zero_step /\
   zero_step <> InvalidConfigurationError).
Proof.
  repeat split; try (vm_compute; reflexivity). discriminate.
Qed.

(** C5, amended: once the document is rasterized, [embed_pdf] with
    [batch_size = 0] fails with the [ValueError] that [range] raises for a
    zero step, before any request is issued; with [batch_size < 0] it does
    not fail.  In neither case is the outcome
    [InvalidConfigurationError]. *)
Theorem embed_pdf_nonpositive_batch_size `{C : Collaborators} (self : Facade)
    (pdf_path : string) (batch_size : Z) (include_images : bool) (w : World)
    (pages : list Image) :
  convert_from_path pdf_path = Ok pages ->
  batch_size <= 0 ->
  let blocking := Midras.embed_pdf self pdf_path batch_size include_images w in
  let cooperative := AsyncMidras.embed_pdf self pdf_path batch_size include_images w in
  (batch_size = 0 ->
   blocking = (Err (ValueError "range() arg 3 must not be zero"), w) /\
   cooperative = (Err (ValueError "range() arg 3 must not be zero"), w)) /\
  (batch_size < 0 ->
   is_ok (fst blocking) = true /\ is_ok (fst cooperative) = true) /\
  fst blocking <> Err InvalidConfigurationError /\
  fst cooperative <> Err InvalidConfigurationError.
Proof.
  intros Hpages Hbs blocking cooperative. subst blocking cooperative.
  destruct (Z.eq_dec batch_size 0) as [->|Hne].
  - destruct (embed_pdf_zero_batch_size self pdf_path include_images w pages Hpages)
      as [Hs Ha].
    rewrite Hs, Ha. simpl.
    repeat split; try discriminate; lia.
  - destruct (embed_pdf_no_batch self pdf_path batch_size include_images w pages
                Hpages Hne (batches_nonpositive pages batch_size Hbs)) as [Hs Ha].
    rewrite Hs, Ha. simpl.
    repeat split; try discriminate; lia.
Qed.

(** Batch sizes 0 and -4 on a three-page document. *)
Lemma embed_pdf_nonpositive_batch_size_witness :
  let C := echo [0; 1; 2]%nat in
  let w := @start C 0%nat tt in
  @Midras.embed_pdf C me "doc.pdf" 0 true w
    = (Err (ValueError "range() arg 3 must not be zero"), w) /\
  @AsyncMidras.embed_pdf C me "doc.pdf" 0 true w
    = (Err (ValueError "range() arg 3 must not be zero"), w) /\
  is_ok (fst (@Midras.embed_pdf C me "doc.pdf" (-4) true w)) = true /\
  is_ok (fst (@AsyncMidras.embed_pdf C me "doc.pdf" (-4) true w)) = true.
Proof.
  intros C w.
  destruct (@embed_pdf_nonpositive_batch_size C me "doc.pdf" 0 true w
              [0; 1; 2]%nat eq_refl ltac:(lia)) as (Hzero & _).
  destruct (@embed_pdf_nonpositive_batch_size C me "doc.pdf" (-4) true w
              [0; 1; 2]%nat eq_refl ltac:(lia)) as (_ & Hneg & _).
  destruct (Hzero eq_refl) as [Hs Ha].
  destruct (Hneg ltac:(lia)) as [Hs' Ha'].
  repeat split; assumption.
Defined.

(** C10: for a negative batch size, once the document is rasterized,
    [embed_pdf] runs its loop body not once: it issues no request, leaves
    the world as it was, and returns a response with zero credits and no
    embeddings, in both facades. *)
Theorem embed_pdf_negative_batch_size `{C : Collaborators} (self : Facade)
    (pdf_path : string) (batch_size : Z) (include_images : bool) (w : World)
    (pages : list Image) :
  convert_from_path pdf_path = Ok pages ->
  batch_size < 0 ->
  let empty := {| credits_spent := 0;
                  embeddings := [];
                  images := if include_images then Some pages else None |} in
  batches pages batch_size = [] /\
  Midras.embed_pdf self pdf_path batch_size include_images w = (Ok empty, w) /\
  AsyncMidras.embed_pdf self pdf_path batch_size include_images w = (Ok empty, w).
Proof.
  intros Hpages Hbs empty.
  assert (Hnone : batches pages batch_size = [])
    by (apply batches_nonpositive; lia).
  split; [exact Hnone|].
  apply embed_pdf_no_batch; [assumption | lia | assumption].
Qed.

(** Batch size -10 on a 23-page document: nothing is requested. *)
Lemma embed_pdf_negative_batch_size_witness :
  let C := echo (seq 0 23) in
  let w := @start C 0%nat tt in
  let empty := {| credits_spent := 0; embeddings := []; images := None |} in
  (-10 < 0) /\
  @Midras.embed_pdf C me "doc.pdf" (-10) false w = (Ok empty, w) /\
  @AsyncMidras.embed_pdf C me "doc.pdf" (-10) false w = (Ok empty, w) /\
  requests (snd (@AsyncMidras.embed_pdf C me "doc.pdf" (-10) false w)) = [].
Proof.
  intros C w empty.
  assert (Hneg : -10 < 0) by lia.
  destruct (@embed_pdf_negative_batch_size C me "doc.pdf" (-10) false w
              (seq 0 23) eq_refl Hneg) as (_ & Hs & Ha).
  split; [exact Hneg|].
  split; [exact Hs|].
  split; [exact Ha|].
  rewrite Ha. reflexivity.
Defined.

(** C6, as stated, fails: [embed_images] on an empty list is sent to the
    service like any other list, so it raises when the service answers 500
    or is unreachable; and [embed_pdf] on a document without pages raises
    when [batch_size] is zero. *)
Lemma empty_input_counterexample :
  let C := scripted [] in
  let w := @start C [Ok (plain_response 500 "boom")] tt in
  (fst (@AsyncMidras.embed_images C me [] "standard" w) = Err (ValueError "boom") /\
   request_sizes (requests (snd (@AsyncMidras.embed_images C me [] "standard" w)))
     = [0%nat]) /\
  fst (@Midras.embed_images C me [] "standard" (@start C [Err TransportError] tt))
    = Err TransportError /\
  fst (@AsyncMidras.embed_pdf C me "doc.pdf" 0 false w)
    = Err (ValueError "range() arg 3 must not be zero").
Proof.
  repeat split; vm_compute; reflexivity.
Qed.

(** C6, amended: [embed_pdf] on a document that rasterizes to zero pages,
    with [batch_size <> 0], issues no request and returns a response with
    [credits_spent = 0] and no embeddings, in both facades.  [embed_images]
    on an empty list is not a special case: it issues one request, with an
    empty image list, and what it returns or raises is decided by the
    response ([AsyncMidras]: its validation). *)
Theorem empty_input `{C : Collaborators} (self : Facade) (pdf_path : string)
    (batch_size : Z) (include_images : bool) (mode : Mode) (w : World) :
  let empty := {| credits_spent := 0;
                  embeddings := [];
                  images := if include_images then Some [] else None |} in
  let request := {| key := api_key self;
                    mode := mode;
                    base64images := Some [];
                    queries := None |} in
  (convert_from_path pdf_path = Ok [] ->
   batch_size <> 0 ->
   Midras.embed_pdf self pdf_path batch_size include_images w = (Ok empty, w) /\
   AsyncMidras.embed_pdf self pdf_path batch_size include_images w = (Ok empty, w)) /\
  requests (snd (Midras.embed_images self [] mode w))
    = requests w ++ [("/embed/images", request)] /\
  requests (snd (AsyncMidras.embed_images self [] mode w))
    = requests w ++ [("/embed/images", request)] /\
  (forall response s,
     post "/embed/images" request (service w) = (Ok response, s) ->
     fst (AsyncMidras.embed_images self [] mode w)
       = AsyncMidras.validate_response response).
Proof.
  intros empty request. subst empty request.
  split; [|split; [|split]].
  - intros Hpages Hbs.
    apply embed_pdf_no_batch; [assumption | assumption | apply batches_nil].
  - apply sync_embed_images_requests.
  - apply async_embed_images_requests.
  - intros response s Hpost. rewrite async_embed_images_run.
    unfold images_request. simpl. now rewrite Hpost.
Qed.

(** A document without pages, and an empty list of images. *)
Lemma empty_input_witness :
  let C := echo [] in
  let w := @start C 0%nat tt in
  let empty := {| credits_spent := 0; embeddings := []; images := Some [] |} in
  (10 <> 0) /\
  @Midras.embed_pdf C me "doc.pdf" 10 true w = (Ok empty, w) /\
  @AsyncMidras.embed_pdf C me "doc.pdf" 10 true w = (Ok empty, w) /\
  fst (@AsyncMidras.embed_images C me [] "standard" w)
    = @AsyncMidras.validate_response C (good_response 0 []).
Proof.
  intros C w empty.
  assert (Hbs : 10 <> 0) by lia.
  destruct (@empty_input C me "doc.pdf" 10 true "standard" w)
    as (Hpdf & _ & _ & Himages).
  destruct (Hpdf eq_refl Hbs) as [Hs Ha].
  split; [exact Hbs|].
  split; [exact Hs|].
  split; [exact Ha|].
  exact (Himages (good_response 0 []) 1%nat eq_refl).
Defined.

(** C7: when the request for some batch fails, the batches before it having
    been embedded, [embed_pdf] fails as a whole: it returns no response,
    hence nothing aggregated from the earlier batches.  In [AsyncMidras] the
    exception of the failing batch is the exception of [embed_pdf], raised
    in the world the failing request left, with no request after it. *)
Theorem embed_pdf_batch_failure_aborts `{C : Collaborators} (self : Facade)
    (pdf_path : string) (batch_size : Z) (include_images : bool) (w : World)
    (pages : list Image) (before : list (list Image)) (failing : list Image)
    (after : list (list Image)) :
  convert_from_path pdf_path = Ok pages ->
  batches pages batch_size = before ++ failing :: after ->
  (forall rs w1 e w2,
     call_each (fun b => AsyncMidras.embed_images self b "standard") before w
       = (Ok rs, w1) ->
     AsyncMidras.embed_images self failing "standard" w1 = (Err e, w2) ->
     AsyncMidras.embed_pdf self pdf_path batch_size include_images w = (Err e, w2)) /\
  (forall js w1 e w2,
     call_each (fun b => Midras.embed_images self b "standard") before w
       = (Ok js, w1) ->
     Midras.embed_images self failing "standard" w1 = (Err e, w2) ->
     is_ok (fst (Midras.embed_pdf self pdf_path batch_size include_images w)) = false).
Proof.
  intros Hpages Hbatches.
  assert (Hbs : batch_size <> 0).
  { enough (0 < batch_size) by lia.
    apply (batches_nonempty_positive pages). rewrite Hbatches.
    now destruct before. }
  split.
  - intros rs w1 e w2 Hbefore Hfail.
    rewrite (async_embed_pdf_run _ _ _ _ _ _ Hpages Hbs), Hbatches.
    now rewrite (call_each_failure _ _ _ after _ _ _ _ _ Hbefore Hfail).
  - intros js w1 e w2 Hbefore Hfail.
    rewrite (sync_embed_pdf_run _ _ _ _ _ _ Hpages Hbs), Hbatches.
    destruct before as [|b before]; simpl in *.
    + injection Hbefore as _ <-. now rewrite Hfail.
    + destruct (Midras.embed_images self b "standard" w) as [[j|e'] w']; reflexivity.
Qed.

(** Three pages in batches of one; the second request is answered 500. *)
Lemma embed_pdf_batch_failure_aborts_witness :
  let C := scripted [0; 1; 2]%nat in
  let script := [Ok (good_response 1 [JList [JList [JInt 7]]]);
                 Ok (plain_response 500 "boom")] in
  let w := @start C script tt in
  batches [0; 1; 2]%nat 1 = [[0%nat]] ++ [1%nat] :: [[2%nat]] /\
  fst (@AsyncMidras.embed_pdf C me "doc.pdf" 1 false w) = Err (ValueError "boom") /\
  request_sizes (requests (snd (@AsyncMidras.embed_pdf C me "doc.pdf" 1 false w)))
    = [1; 1]%nat /\
  is_ok (fst (@Midras.embed_pdf C me "doc.pdf" 1 false w)) = false.
Proof.
  intros C script w.
  assert (Hbatches : batches [0; 1; 2]%nat 1 = [[0%nat]] ++ [1%nat] :: [[2%nat]])
    by reflexivity.
  destruct (@embed_pdf_batch_failure_aborts C me "doc.pdf" 1 false w
              [0; 1; 2]%nat [[0%nat]] [1%nat] [[2%nat]] eq_refl Hbatches)
    as [Hasync Hsync].
  split; [exact Hbatches|].
  split; [|split].
  - erewrite Hasync; [ | vm_compute; reflexivity | vm_compute; reflexivity];
      reflexivity.
  - erewrite Hasync; [ | vm_compute; reflexivity | vm_compute; reflexivity];
      reflexivity.
  - eapply Hsync; vm_compute; reflexivity.
Defined.

(** C8: whenever [embed_pdf] returns a response, its [images] field holds
    exactly the rasterized pages, in their order, when [include_images] is
    set, and is [None], which is not the empty list, when it is not. *)
Theorem embed_pdf_images_field `{C : Collaborators} (self : Facade)
    (pdf_path : string) (batch_size : Z) (include_images : bool) (w : World)
    (pages : list Image) (r : MidrasResponse) (w' : World) :
  convert_from_path pdf_path = Ok pages ->
  (Midras.embed_pdf self pdf_path batch_size include_images w = (Ok r, w') \/
   AsyncMidras.embed_pdf self pdf_path batch_size include_images w = (Ok r, w')) ->
  images r = (if include_images then Some pages else None) /\
  (include_images = false -> images r <> Some []).
Proof.
  intros Hpages Hrun.
  assert (Himages : images r = if include_images then Some pages else None).
  { destruct (Z.eq_dec batch_size 0) as [->|Hbs].
    { destruct (embed_pdf_zero_batch_size self pdf_path include_images w pages Hpages)
        as [Hs Ha].
      rewrite Hs, Ha in Hrun. destruct Hrun; discriminate. }
    rewrite (sync_embed_pdf_run _ _ _ _ _ _ Hpages Hbs) in Hrun.
    rewrite (async_embed_pdf_run _ _ _ _ _ _ Hpages Hbs) in Hrun.
    destruct Hrun as [Hrun|Hrun].
    - destruct (batches pages batch_size) as [|b bs].
      + injection Hrun as <- _. reflexivity.
      + destruct (Midras.embed_images self b "standard" w) as [[j|e] w1]; discriminate.
    - destruct (call_each _ _ w) as [[rs|e] w1]; [|discriminate].
      injection Hrun as <- _. reflexivity. }
  split; [exact Himages|].
  intros ->. rewrite Himages. discriminate.
Qed.

(** The [images] field with and without [include_images]. *)
Lemma embed_pdf_images_field_witness :
  let C := echo [0; 1; 2]%nat in
  let w := @start C 0%nat tt in
  (exists r w',
     @AsyncMidras.embed_pdf C me "doc.pdf" 2 true w = (Ok r, w') /\
     images r = Some [0; 1; 2]%nat) /\
  (exists r w',
     @AsyncMidras.embed_pdf C me "doc.pdf" 2 false w = (Ok r, w') /\
     images r = None /\ images r <> Some []) /\
  (exists r w',
     @Midras.embed_pdf C me "doc.pdf" (-2) true w = (Ok r, w') /\
     images r = Some [0; 1; 2]%nat).
Proof.
  intros C w. split; [|split].
  - eexists. eexists. split; [vm_compute; reflexivity|].
    eapply (@embed_pdf_images_field C me "doc.pdf" 2 true w [0; 1; 2]%nat _ _ eq_refl).
    right. vm_compute. reflexivity.
  - eexists. eexists. split; [vm_compute; reflexivity|].
    edestruct (@embed_pdf_images_field C me "doc.pdf" 2 false w [0; 1; 2]%nat)
      as [Hnone Hdistinct];
      [reflexivity | right; vm_compute; reflexivity|].
    split; [exact Hnone | exact (Hdistinct eq_refl)].
  - eexists. eexists. split; [vm_compute; reflexivity|].
    eapply (@embed_pdf_images_field C me "doc.pdf" (-2) true w [0; 1; 2]%nat _ _ eq_refl).
    left. vm_compute. reflexivity.
Defined.

(** * Beyond the claims: what the operations touch *)

Section Frames.
Context `{C : Collaborators}.

Lemma keeps_ret {T A} (proj : World -> T) (a : A) : keeps proj (ret a).
Proof. intros w. reflexivity. Qed.

Lemma keeps_lift {T A} (proj : World -> T) (r : result A) : keeps proj (lift r).
Proof. intros w. reflexivity. Qed.

Lemma keeps_bind {T A B} (proj : World -> T) (m : M A) (k : A -> M B) :
  keeps proj m -> (forall a, keeps proj (k a)) -> keeps proj (bind m k).
Proof.
  intros Hm Hk w. unfold bind. specialize (Hm w).
  destruct (m w) as [[a|e] w1]; simpl in *; [|exact Hm].
  rewrite (Hk a w1). exact Hm.
Qed.

Lemma keeps_for_in {T X St} (proj : World -> T) (body : X -> St -> M St) xs st :
  (forall x st', keeps proj (body x st')) -> keeps proj (for_in xs body st).
Proof.
  intros Hbody. revert st. induction xs as [|x xs IH]; intros st; simpl.
  - apply keeps_ret.
  - apply keeps_bind; [apply Hbody | exact IH].
Qed.

Lemma post_keeps_index url request : keeps index (client_post url request).
Proof. intros w. unfold client_post. destruct (post _ _ _). reflexivity. Qed.

Lemma post_keeps_printed url request : keeps printed (client_post url request).
Proof. intros w. unfold client_post. destruct (post _ _ _). reflexivity. Qed.

Lemma print_keeps_index n : keeps index (print n).
Proof. intros w. reflexivity. Qed.

Lemma search_keeps_requests name v quantity :
  keeps requests (index_search name v quantity).
Proof. intros w. unfold index_search. destruct (search _ _ _ _). reflexivity. Qed.

Lemma search_keeps_printed name v quantity :
  keeps printed (index_search name v quantity).
Proof. intros w. unfold index_search. destruct (search _ _ _ _). reflexivity. Qed.

Lemma emits_ret {A} P (a : A) : emits P (ret a).
Proof. intros w. exists []. simpl. now rewrite app_nil_r. Qed.

Lemma emits_lift {A} P (r : result A) : emits P (lift r).
Proof. intros w. exists []. simpl. now rewrite app_nil_r. Qed.

Lemma emits_bind {A B} P (m : M A) (k : A -> M B) :
  emits P m -> (forall a, emits P (k a)) -> emits P (bind m k).
Proof.
  intros Hm Hk w. unfold bind. destruct (Hm w) as (l1 & H1 & P1).
  destruct (m w) as [[a|e] w1]; simpl in *.
  - destruct (Hk a w1) as (l2 & H2 & P2).
    exists (l1 ++ l2). rewrite H2, H1, app_assoc.
    split; [reflexivity | now apply Forall_app].
  - exists l1. now split.
Qed.

Lemma emits_for_in {X St} P (body : X -> St -> M St) xs st :
  (forall x st', emits P (body x st')) -> emits P (for_in xs body st).
Proof.
  intros Hbody. revert st. induction xs as [|x xs IH]; intros st; simpl.
  - apply emits_ret.
  - apply emits_bind; [apply Hbody | exact IH].
Qed.

Lemma emits_post P url request : P (url, request) -> emits P (client_post url request).
Proof.
  intros HP w. unfold client_post. destruct (post _ _ _).
  exists [(url, request)]. split; [reflexivity | now constructor].
Qed.

Lemma emits_print P n : emits P (print n).
Proof. intros w. exists []. simpl. now rewrite app_nil_r. Qed.

Lemma emits_search P name v quantity : emits P (index_search name v quantity).
Proof.
  intros w. exists []. rewrite search_keeps_requests. now rewrite app_nil_r.
Qed.

End Frames.

Ltac frame :=
  repeat first
    [ apply keeps_ret | apply keeps_lift
    | apply post_keeps_index | apply post_keeps_printed | apply print_keeps_index
    | apply search_keeps_requests | apply search_keeps_printed
    | apply keeps_bind | apply keeps_for_in
    | intros ? [? ?]; cbv beta iota
    | intro ].

Ltac trace :=
  repeat first
    [ apply emits_ret | apply emits_lift | apply emits_print | apply emits_search
    | apply emits_post; split; reflexivity
    | apply emits_bind | apply emits_for_in
    | intros ? [? ?]; cbv beta iota
    | intro ].

(** X7: No embedding operation reads or changes the vector store, and no
    operation of [AsyncMidras] prints: after [embed_images], [embed_pdf],
    [embed_queries] and [embed_text] the store is the one before the call,
    whatever the service answers. *)
Theorem embedding_leaves_store_alone `{C : Collaborators} (self : Facade)
    (pil_images : list Image) (texts : list string) (mode : Mode)
    (pdf_path : string) (batch_size : Z) (include_images : bool)
    (name text : string) (quantity : Z) (w : World) :
  (index (snd (Midras.embed_images self pil_images mode w)) = index w /\
   index (snd (Midras.embed_queries self texts mode w)) = index w /\
   index (snd (Midras.embed_pdf self pdf_path batch_size include_images w)) = index w) /\
  (index (snd (AsyncMidras.embed_images self pil_images mode w)) = index w /\
   index (snd (AsyncMidras.embed_text self texts mode w)) = index w /\
   index (snd (AsyncMidras.embed_pdf self pdf_path batch_size include_images w))
     = index w) /\
  (printed (snd (AsyncMidras.embed_images self pil_images mode w)) = printed w /\
   printed (snd (AsyncMidras.embed_text self texts mode w)) = printed w /\
   printed (snd (AsyncMidras.embed_pdf self pdf_path batch_size include_images w))
     = printed w /\
   printed (snd (AsyncMidras.query_text self name text quantity w)) = printed w).
Proof.
  repeat split;
    match goal with
    | |- ?proj (snd (?m w)) = ?proj w => generalize w; change (keeps proj m)
    end;
    unfold Midras.embed_images, Midras.embed_queries, Midras.embed_pdf,
      AsyncMidras.embed_images, AsyncMidras.embed_text, AsyncMidras.embed_pdf,
      AsyncMidras.query_text;
    frame.
Qed.

(** X8: Every operation that talks to the service only appends to the trace of
    requests, and every request it appends carries [self.api_key] and
    exactly one payload, images or queries, never both and never none. *)
Theorem requests_are_well_formed `{C : Collaborators} (self : Facade)
    (pil_images : list Image) (texts : list string) (mode : Mode)
    (pdf_path : string) (batch_size : Z) (include_images : bool)
    (name text : string) (quantity : Z) :
  let sound (r : string * MidrasRequest) :=
    key (snd r) = api_key self /\ one_payload (snd r) = true in
  (emits sound (Midras.embed_images self pil_images mode) /\
   emits sound (Midras.embed_queries self texts mode) /\
   emits sound (Midras.embed_pdf self pdf_path batch_size include_images) /\
   emits sound (Midras.query self name text quantity)) /\
  (emits sound (AsyncMidras.embed_images self pil_images mode) /\
   emits sound (AsyncMidras.embed_text self texts mode) /\
   emits sound (AsyncMidras.embed_pdf self pdf_path batch_size include_images) /\
   emits sound (AsyncMidras.query_text self name text quantity)).
Proof.
  intros sound. subst sound.
  split; (split; [|split; [|split]]);
    unfold Midras.embed_images, Midras.embed_queries, Midras.embed_pdf, Midras.query,
      AsyncMidras.embed_images, AsyncMidras.embed_text, AsyncMidras.embed_pdf,
      AsyncMidras.query_text;
    trace.
Qed.

(** * Beyond the claims: the batching pipeline *)

(** Three pages in batches of two against a well-behaved service. *)
Lemma async_embed_pdf_batched_witness :
  let C := echo [0; 1; 2]%nat in
  let w := @start C 0%nat tt in
  exists rs w',
    call_each (fun b => @AsyncMidras.embed_images C me b "standard")
              (batches [0; 1; 2]%nat 2) w = (Ok rs, w') /\
    concat (batches [0; 1; 2]%nat 2) = [0; 1; 2]%nat /\
    Z.of_nat (length (batches [0; 1; 2]%nat 2)) = ceil_div 3 2 /\
    request_sizes (requests w') = [2; 1]%nat /\
    @AsyncMidras.embed_pdf C me "doc.pdf" 2 true w =
      (Ok {| credits_spent := Py.sum (map credits_spent rs);
             embeddings := concat (map embeddings rs);
             images := Some [0; 1; 2]%nat |}, w').
Proof.
  intros C w. eexists. eexists.
  split; [vm_compute; reflexivity|].
  edestruct (@async_embed_pdf_batched C me "doc.pdf" 2 true w [0; 1; 2]%nat)
    as (Hconcat & _ & _ & Hcount & Hrequests & _ & Hrun);
    [reflexivity | lia | vm_compute; reflexivity|].
  split; [exact Hconcat|].
  split; [exact Hcount|].
  split; [|exact Hrun].
  rewrite Hrequests. reflexivity.
Defined.

(** A three-page document, batches of two: one request, for pages 0 and 1,
    then the failure. *)
Lemma sync_embed_pdf_stops_witness :
  let C := echo [0; 1; 2]%nat in
  let w := @start C 0%nat tt in
  @Midras.embed_pdf C me "doc.pdf" 2 false w =
    match @Midras.embed_images C me [0; 1]%nat "standard" w with
    | (Ok _, w') => (Err (AttributeError "embeddings"), w')
    | (Err e, w') => (Err e, w')
    end /\
  is_ok (fst (@Midras.embed_pdf C me "doc.pdf" 2 false w)) = false /\
  requests (snd (@Midras.embed_pdf C me "doc.pdf" 2 false w)) =
    [("/embed/images", @images_request C me "standard" [0; 1]%nat)].
Proof.
  intros C w.
  apply (@sync_embed_pdf_stops C me "doc.pdf" 2 false w [0; 1; 2]%nat);
    [reflexivity | lia | discriminate].
Defined.

Section PipelineMore.
Context `{C : Collaborators}.
Implicit Types (self : Facade) (w : World) (include_images : bool)
  (pages : list Image) (batch_size : Z).


Lemma batches_single pages batch_size :
  pages <> [] -> Py.len pages <= batch_size -> batches pages batch_size = [pages].
Proof.
  intros Hne Hfit.
  assert (Hlen : 0 < Py.len pages).
  { unfold Py.len. destruct pages; [contradiction|]. simpl length. lia. }
  rewrite batches_windows by lia.
  assert (Hone : Py.range_length 0 (Py.len pages) batch_size = 1%nat).
  { apply Nat2Z.inj. rewrite range_length_positive by lia.
    pose proof (ceil_div_bounds (Py.len pages) batch_size ltac:(lia)). nia. }
  rewrite Hone. simpl. rewrite firstn_all2; [reflexivity|].
  unfold Py.len in Hfit. lia.
Qed.

End PipelineMore.

(** X3: When the rasterizer raises, [embed_pdf] raises the same exception in
    both facades, whatever the batch size (zero included, since the
    document is rasterized before the range is built), and issues no
    request. *)
Theorem embed_pdf_rasterization_failure `{C : Collaborators} (self : Facade)
    (pdf_path : string) (batch_size : Z) (include_images : bool) (w : World)
    (e : exn) :
  convert_from_path pdf_path = Err e ->
  Midras.embed_pdf self pdf_path batch_size include_images w = (Err e, w) /\
  AsyncMidras.embed_pdf self pdf_path batch_size include_images w = (Err e, w).
Proof.
  intros Hfail. unfold Midras.embed_pdf, AsyncMidras.embed_pdf, bind, lift.
  rewrite Hfail. split; reflexivity.
Qed.

(** An unreadable document, with batch sizes 10 and 0. *)
Lemma embed_pdf_rasterization_failure_witness :
  let C := unreadable in
  let w := @start C 0%nat tt in
  @Midras.embed_pdf C me "doc.pdf" 10 false w
    = (Err (CollaboratorError "unreadable"), w) /\
  @AsyncMidras.embed_pdf C me "doc.pdf" 0 false w
    = (Err (CollaboratorError "unreadable"), w).
Proof.
  intros C w. split.
  - apply (@embed_pdf_rasterization_failure C me "doc.pdf" 10 false w
             (CollaboratorError "unreadable") eq_refl).
  - apply (@embed_pdf_rasterization_failure C me "doc.pdf" 0 false w
             (CollaboratorError "unreadable") eq_refl).
Defined.



(** X5: A batch size that covers a non-empty document: [AsyncMidras.embed_pdf]
    is one call of [embed_images] on all the pages; the response's credits
    and embeddings come back as they are, with the pages when asked for. *)
Theorem async_embed_pdf_single_batch `{C : Collaborators} (self : Facade)
    (pdf_path : string) (batch_size : Z) (include_images : bool) (w : World)
    (pages : list Image) :
  convert_from_path pdf_path = Ok pages ->
  pages <> [] ->
  Py.len pages <= batch_size ->
  AsyncMidras.embed_pdf self pdf_path batch_size include_images w =
  match AsyncMidras.embed_images self pages "standard" w with
  | (Ok r, w') =>
      (Ok {| credits_spent := credits_spent r;
             embeddings := embeddings r;
             images := if include_images then Some pages else None |}, w')
  | (Err e, w') => (Err e, w')
  end.
Proof.
  intros Hpages Hne Hfit.
  assert (Hbs : batch_size <> 0).
  { pose proof (len_nonneg pages). unfold Py.len in *.
    destruct pages; [contradiction|]. simpl length in *. lia. }
  rewrite (async_embed_pdf_run _ _ _ _ _ _ Hpages Hbs).
  rewrite (batches_single pages batch_size Hne Hfit). simpl.
  unfold bind, ret.
  destruct (AsyncMidras.embed_images self pages "standard" w) as [[r|e] w1];
    [|reflexivity].
  simpl. now rewrite Z.add_0_r, app_nil_r.
Qed.

(** Three pages, batch size ten: one request of three images. *)
Lemma async_embed_pdf_single_batch_witness :
  let C := echo [0; 1; 2]%nat in
  let w := @start C 0%nat tt in
  @AsyncMidras.embed_pdf C me "doc.pdf" 10 false w =
  match @AsyncMidras.embed_images C me [0; 1; 2]%nat "standard" w with
  | (Ok r, w') =>
      (Ok {| credits_spent := credits_spent r;
             embeddings := embeddings r;
             images := None |}, w')
  | (Err e, w') => (Err e, w')
  end.
Proof.
  intros C w.
  apply (@async_embed_pdf_single_batch C me "doc.pdf" 10 false w [0; 1; 2]%nat eq_refl).
  - discriminate.
  - vm_compute. discriminate.
Defined.

(** X6: [include_images] changes the [images] field and nothing else: with it
    or without it [embed_pdf] issues the same requests, leaves the same
    world, raises the same exception, and returns the same credits and
    embeddings. *)
Theorem include_images_only_adds_pages `{C : Collaborators} (self : Facade)
    (pdf_path : string) (batch_size : Z) (w : World) :
  let same (a b : result MidrasResponse * World) :=
    snd a = snd b /\
    match fst a, fst b with
    | Ok r1, Ok r2 =>
        credits_spent r1 = credits_spent r2 /\ embeddings r1 = embeddings r2
    | Err e1, Err e2 => e1 = e2
    | _, _ => False
    end in
  same (Midras.embed_pdf self pdf_path batch_size true w)
       (Midras.embed_pdf self pdf_path batch_size false w) /\
  same (AsyncMidras.embed_pdf self pdf_path batch_size true w)
       (AsyncMidras.embed_pdf self pdf_path batch_size false w).
Proof.
  intros same. subst same. cbv beta.
  destruct (convert_from_path pdf_path) as [pages|e] eqn:Hpages.
  2: { unfold Midras.embed_pdf, AsyncMidras.embed_pdf, bind, lift.
       rewrite Hpages. simpl. auto. }
  destruct (Z.eq_dec batch_size 0) as [->|Hbs].
  { destruct (embed_pdf_zero_batch_size self pdf_path true w pages Hpages) as [-> ->].
    destruct (embed_pdf_zero_batch_size self pdf_path false w pages Hpages) as [-> ->].
    simpl. auto. }
  rewrite !(sync_embed_pdf_run _ _ _ _ _ _ Hpages Hbs).
  rewrite !(async_embed_pdf_run _ _ _ _ _ _ Hpages Hbs).
  split.
  - destruct (batches pages batch_size) as [|b bs]; [simpl; auto|].
    destruct (Midras.embed_images self b "standard" w) as [[j|e] w1]; simpl; auto.
  - destruct (call_each _ _ w) as [[rs|e] w1]; simpl; auto.
Qed.

(** * Beyond the claims: single requests *)

(** X9: The blocking facade does not look at the status: [Midras.embed_images]
    and [Midras.embed_queries] return the decoded body of whatever response
    arrives (or raise when the body does not decode); [embed_images] prints
    the status code once, [embed_queries] prints nothing.  When the
    transport itself raises, that exception comes out and nothing is
    printed. *)
Theorem sync_returns_body_unvalidated `{C : Collaborators} (self : Facade)
    (pil_images : list Image) (texts : list string) (mode : Mode) (w : World) :
  (forall response s,
     post "/embed/images" (images_request self mode pil_images) (service w)
       = (Ok response, s) ->
     fst (Midras.embed_images self pil_images mode w) = Response_json response /\
     printed (snd (Midras.embed_images self pil_images mode w))
       = printed w ++ [status_code response]) /\
  (forall response s,
     post "/embed/queries" (queries_request self mode texts) (service w)
       = (Ok response, s) ->
     fst (Midras.embed_queries self texts mode w) = Response_json response /\
     printed (snd (Midras.embed_queries self texts mode w)) = printed w) /\
  (forall e s,
     post "/embed/images" (images_request self mode pil_images) (service w)
       = (Err e, s) ->
     fst (Midras.embed_images self pil_images mode w) = Err e /\
     printed (snd (Midras.embed_images self pil_images mode w)) = printed w).
Proof.
  split; [|split].
  - intros response s Hpost. rewrite sync_embed_images_run. simpl.
    rewrite Hpost. split; reflexivity.
  - intros response s Hpost.
    unfold Midras.embed_queries, bind, client_post, lift.
    change {| key := api_key self; mode := mode; base64images := None;
              queries := Some texts |} with (queries_request self mode texts).
    rewrite Hpost. split; reflexivity.
  - intros e s Hpost. rewrite sync_embed_images_run. simpl.
    rewrite Hpost. split; reflexivity.
Qed.

(** A 500 response with a JSON body, and a transport failure. *)
Lemma sync_returns_body_unvalidated_witness :
  let C := scripted [] in
  let fault := {| status_code := 500;
                  text := "down";
                  json_body := Some (JDict [("detail", JStr "down")]) |} in
  (fst (@Midras.embed_images C me [0%nat] "standard" (@start C [Ok fault] tt))
     = Ok (JDict [("detail", JStr "down")]) /\
   printed (snd (@Midras.embed_images C me [0%nat] "standard" (@start C [Ok fault] tt)))
     = [500]) /\
  fst (@Midras.embed_queries C me ["q"] "standard" (@start C [Ok fault] tt))
    = Ok (JDict [("detail", JStr "down")]) /\
  fst (@Midras.embed_images C me [0%nat] "standard" (@start C [] tt))
    = Err TransportError.
Proof.
  intros C fault.
  destruct (@sync_returns_body_unvalidated C me [0%nat] ["q"] "standard"
              (@start C [Ok fault] tt)) as (Himages & Hqueries & _).
  destruct (@sync_returns_body_unvalidated C me [0%nat] ["q"] "standard"
              (@start C [] tt)) as (_ & _ & Hdown).
  split; [exact (Himages fault [] eq_refl)|].
  split; [exact (proj1 (Hqueries fault [] eq_refl))|].
  exact (proj1 (Hdown TransportError [] eq_refl)).
Defined.

(** X10: For a list of images the two facades send the same request to the same
    path and leave the service in the same state; for a list of texts they
    build the same request but [Midras.embed_queries] posts it to
    ["/embed/queries"] and [AsyncMidras.embed_text] to the empty path.  Each
    call issues exactly one request, whether it then succeeds or not. *)
Theorem facades_send_the_same_request `{C : Collaborators} (self : Facade)
    (pil_images : list Image) (texts : list string) (mode : Mode) (w : World) :
  (requests (snd (Midras.embed_images self pil_images mode w))
     = requests w ++ [("/embed/images", images_request self mode pil_images)] /\
   requests (snd (AsyncMidras.embed_images self pil_images mode w))
     = requests w ++ [("/embed/images", images_request self mode pil_images)] /\
   service (snd (Midras.embed_images self pil_images mode w))
     = service (snd (AsyncMidras.embed_images self pil_images mode w))) /\
  (requests (snd (Midras.embed_queries self texts mode w))
     = requests w ++ [("/embed/queries", queries_request self mode texts)] /\
   requests (snd (AsyncMidras.embed_text self texts mode w))
     = requests w ++ [("", queries_request self mode texts)]).
Proof.
  split; [split; [|split]|split].
  - apply sync_embed_images_requests.
  - apply async_embed_images_requests.
  - rewrite sync_embed_images_run, async_embed_images_run. simpl.
    destruct (post _ _ _) as [[response|e] s]; reflexivity.
  - unfold Midras.embed_queries, bind, client_post, lift, queries_request.
    destruct (post _ _ _) as [[response|e] s]; reflexivity.
  - unfold AsyncMidras.embed_text, bind, client_post, lift, queries_request.
    destruct (post _ _ _) as [[response|e] s]; reflexivity.
Qed.

(** X11: [validate_response] returns a response only for a status below 500
    whose body decodes to a JSON object: never for a server fault, an
    undecodable body, or a JSON value of another kind. *)
Theorem validate_response_accepts_objects_only `{C : Collaborators}
    (response : Response) (r : MidrasResponse) :
  AsyncMidras.validate_response response = Ok r ->
  status_code response < 500 /\
  exists d, json_body response = Some (JDict d) /\
            MidrasResponse_of_json (JDict d) = Ok r.
Proof.
  unfold AsyncMidras.validate_response, Response_json.
  destruct (Z.leb_spec 500 (status_code response)); [discriminate|].
  destruct (json_body response) as [x|]; [|discriminate].
  intros Hx. split; [assumption|].
  destruct x; try discriminate. eauto.
Qed.

(** A 404 whose body has the expected shape. *)
Lemma validate_response_accepts_objects_only_witness :
  let C := echo [] in
  let response := {| status_code := 404;
                     text := "";
                     json_body := json_body (good_response 2 []) |} in
  exists r,
    @AsyncMidras.validate_response C response = Ok r /\
    status_code response < 500 /\
    exists d, json_body response = Some (JDict d) /\
              @MidrasResponse_of_json C (JDict d) = Ok r.
Proof.
  intros C response. eexists. split; [vm_compute; reflexivity|].
  apply (@validate_response_accepts_objects_only C response).
  vm_compute. reflexivity.
Defined.

(** * Beyond the claims: queries *)

(** X12: [AsyncMidras.query_text], end to end, when the response validates and
    holds at least one embedding: one request, for the single text, to the
    empty path; then one search of the named index with the first embedding
    and the quantity as given (no check on it); the search's outcome is the
    outcome of the call.  Further embeddings of the response are ignored. *)
Theorem async_query_text_searches_first `{C : Collaborators} (self : Facade)
    (name text : string) (quantity : Z) (w : World) (response : Response)
    (s : Service) (r : MidrasResponse) (v : ColBERT) (rest : list ColBERT) :
  post "" (queries_request self "standard" [text]) (service w) = (Ok response, s) ->
  AsyncMidras.validate_response response = Ok r ->
  embeddings r = v :: rest ->
  AsyncMidras.query_text self name text quantity w =
  (fst (search name v quantity (index w)),
   {| service := s;
      index := snd (search name v quantity (index w));
      requests := requests w ++ [("", queries_request self "standard" [text])];
      printed := printed w |}).
Proof.
  intros Hpost Hvalid Hfirst.
  unfold AsyncMidras.query_text, AsyncMidras.embed_text, bind, client_post, lift.
  change {| key := api_key self; mode := "standard"; base64images := None;
            queries := Some [text] |} with (queries_request self "standard" [text]).
  rewrite Hpost, Hvalid, Hfirst. simpl.
  unfold index_search. simpl.
  destruct (search name v quantity (index w)); reflexivity.
Qed.

(** A query against the well-behaved service, with a quantity of zero. *)
Lemma async_query_text_searches_first_witness :
  let C := echo [] in
  let w := @start C 0%nat tt in
  @AsyncMidras.query_text C me "idx" "q" 0 w =
  (Ok [[[inject_Z 0; inject_Z 0]]],
   {| service := 1%nat;
      index := tt;
      requests := [("", queries_request me "standard" ["q"])];
      printed := [] |}).
Proof.
  intros C w.
  apply (@async_query_text_searches_first C me "idx" "q" 0 w
           (echo_response 0 (queries_request me "standard" ["q"])) 1%nat
           {| credits_spent := 1;
              embeddings := [[[inject_Z 0; inject_Z 0]]];
              images := None |}
           [[inject_Z 0; inject_Z 0]] []);
    reflexivity.
Defined.

(** X13: When the embedding of the query fails, [AsyncMidras.query_text] raises
    that exception and the store is neither searched nor changed. *)
Theorem async_query_text_embedding_failure `{C : Collaborators} (self : Facade)
    (name text : string) (quantity : Z) (w : World) (e : exn) (w1 : World) :
  AsyncMidras.embed_text self [text] "standard" w = (Err e, w1) ->
  AsyncMidras.query_text self name text quantity w = (Err e, w1) /\
  index w1 = index w.
Proof.
  intros Hfail. split.
  - unfold AsyncMidras.query_text, bind. now rewrite Hfail.
  - assert (Hkeeps : keeps index (AsyncMidras.embed_text self [text] "standard"))
      by (unfold AsyncMidras.embed_text; frame).
    specialize (Hkeeps w). now rewrite Hfail in Hkeeps.
Qed.

(** A query answered 500. *)
Lemma async_query_text_embedding_failure_witness :
  let C := scripted [] in
  let w := @start C [Ok (plain_response 500 "boom")] tt in
  @AsyncMidras.query_text C me "idx" "q" 5 w
    = (Err (ValueError "boom"),
       {| service := [];
          index := tt;
          requests := [("", queries_request me "standard" ["q"])];
          printed := [] |}).
Proof.
  intros C w.
  apply (@async_query_text_embedding_failure C me "idx" "q" 5 w). reflexivity.
Defined.

(** A query answered with no embedding at all. *)
Lemma async_query_text_empty_witness :
  let C := scripted [] in
  let w := @start C [Ok (good_response 0 [])] tt in
  exists w',
    @AsyncMidras.query_text C me "idx" "q" 5 w = (Err IndexError, w') /\
    index w' = index w.
Proof.
  intros C w. eexists. split.
  - eapply (@async_query_text_empty C me "idx" "q" 5 w);
      [vm_compute; reflexivity | reflexivity].
  - reflexivity.
Defined.

(** * Beyond the claims: the vector store operations *)

(** X16: [add_point] creates one point from the id, the embedding and the data,
    then saves the one-element list made of that point into the named index,
    on the store as [create_point] left it; the outcome of [save_points] is
    the outcome of the call.  When [create_point] raises, [save_points] is
    not called.  The two facades do the same. *)
Theorem add_point_saves_the_point_created `{C : Collaborators} `{S : @VectorStore C}
    (self : Facade) (name : string) (id : point_id) (embedding : ColBERT)
    (data : Payload) (w : World) :
  AsyncMidras.add_point self name id embedding data w =
  match create_point id embedding data (index w) with
  | (Ok point, i1) =>
      (fst (save_points name [point] i1),
       {| service := service w;
          index := snd (save_points name [point] i1);
          requests := requests w;
          printed := printed w |})
  | (Err e, i1) =>
      (Err e,
       {| service := service w;
          index := i1;
          requests := requests w;
          printed := printed w |})
  end /\
  Midras.add_point self name id embedding data w =
  AsyncMidras.add_point self name id embedding data w.
Proof.
  split; [|reflexivity].
  unfold AsyncMidras.add_point, bind, index_create_point, index_save_points, index_call.
  destruct (create_point id embedding data (index w)) as [[point|e] i1]; simpl.
  - destruct (save_points name [point] i1); reflexivity.
  - reflexivity.
Qed.

(** On the in-memory store: a point saved into an index that exists, and
    one refused by an index that does not. *)
Lemma add_point_saves_the_point_created_witness :
  let w : @World shelved := @start shelved 0%nat [("x", [])] in
  let v := [[inject_Z 1]] in
  @AsyncMidras.add_point shelved shelved_store me "x" (IntId 7) v tt w
    = (Ok 1%nat, @start shelved 0%nat [("x", [(IntId 7, v)])]) /\
  @Midras.add_point shelved shelved_store me "y" (IntId 7) v tt w
    = (Err IndexNotFoundError, w).
Proof.
  intros w v.
  destruct (@add_point_saves_the_point_created shelved shelved_store me "x"
              (IntId 7) v tt w) as [Hsaved _].
  destruct (@add_point_saves_the_point_created shelved shelved_store me "y"
              (IntId 7) v tt w) as [Hrefused Hsame].
  split.
  - rewrite Hsaved. reflexivity.
  - rewrite Hsame, Hrefused. reflexivity.
Defined.

(** X17: [create_index] and [add_point] stay within the vector store: they
    issue no request, leave the service as it is and print nothing;
    [create_index] returns what the store's [create_index] returns, and the
    two facades agree on it. *)
Theorem store_operations_stay_local `{C : Collaborators} `{S : @VectorStore C}
    (self : Facade) (name : string) (id : point_id) (embedding : ColBERT)
    (data : Payload) (w : World) :
  let untouched (w' : World) :=
    service w' = service w /\ requests w' = requests w /\ printed w' = printed w in
  untouched (snd (Midras.create_index self name w)) /\
  untouched (snd (Midras.add_point self name id embedding data w)) /\
  untouched (snd (AsyncMidras.add_point self name id embedding data w)) /\
  Midras.create_index self name w =
    (fst (create_index name (index w)),
     {| service := service w;
        index := snd (create_index name (index w));
        requests := requests w;
        printed := printed w |}) /\
  AsyncMidras.create_index self name w = Midras.create_index self name w.
Proof.
  intros untouched. subst untouched. cbv beta.
  unfold Midras.create_index, AsyncMidras.create_index, Midras.add_point,
    AsyncMidras.add_point, bind, index_create_index, index_create_point,
    index_save_points, index_call.
  destruct (create_index name (index w)) as [rc ic].
  destruct (create_point id embedding data (index w)) as [[point|e] i1]; simpl;
    [destruct (save_points name [point] i1) as [rs i2]|]; simpl; auto 10.
Qed.
